(** * log_analyser: a shallow embedding of [log_analyzer.py]

    The development follows the Python module function by function:
    [parse_config], [get_last_log_file], [log_parser], [mediana],
    [write_report] and [main].  Python values are modelled as follows.

    - [str] is [string]; the embedding is exact for ASCII text (one
      character per code point).
    - [float] is an IEEE-754 binary64 number, [spec_float] with precision
      53 and maximal exponent 1024, with the round-to-nearest-even
      operations of the standard library's [SpecFloat].
    - [int] is [Z].
    - a raised exception is the [Raise] case of [result]; statements are
      sequenced with a bind.
    - [dict] is an association list in insertion order, which is the
      iteration order of a Python dictionary. *)

From Stdlib Require Import ZArith List Bool String Ascii Lia.
From Stdlib Require Import Permutation Sorted.
From Stdlib Require Import Floats.SpecFloat.
Import ListNotations.

Local Open Scope string_scope.
Local Open Scope list_scope.
Local Open Scope Z_scope.

(** ** Exceptions and results *)

Inductive exn : Type :=
| ValueError
| IndexError
| KeyError
| ZeroDivisionError
| OverflowError.

Inductive result (A : Type) : Type :=
| Ok (a : A)
| Raise (e : exn).

Arguments Ok {A} a.
Arguments Raise {A} e.

Definition bind {A B : Type} (r : result A) (k : A -> result B) : result B :=
  match r with
  | Ok a => k a
  | Raise e => Raise e
  end.

Notation "x <- r ;; k" := (bind r (fun x => k))
  (at level 61, r at next level, right associativity).

(** ** Binary64 floating point *)

Module Float.

Definition float : Type := spec_float.

Definition prec : Z := 53.
Definition emax : Z := 1024.

Definition zero : float := S754_zero false.

Definition add (x y : float) : float := SFadd prec emax x y.
Definition mul (x y : float) : float := SFmul prec emax x y.
Definition div (x y : float) : float := SFdiv prec emax x y.
Definition ltb (x y : float) : bool := SFltb x y.
Definition eqb (x y : float) : bool := SFeqb x y.
Definition leb (x y : float) : bool := SFleb x y.

(** [float(n)] for an [int]: the nearest binary64 number (exact when
    [|n| <= 2^53]); Python raises [OverflowError] when the result is
    not finite. *)
Definition of_Z (n : Z) : float := binary_normalize prec emax n 0 false.

Definition is_zero (x : float) : bool :=
  match x with
  | S754_zero _ => true
  | _ => false
  end.

Definition is_nan (x : float) : bool :=
  match x with
  | S754_nan => true
  | _ => false
  end.

(** The binary64 number nearest to the decimal [n / 10^k]: what the
    Python literal or [float("...")] denotes.  A correctly rounded
    quotient of two integers. *)
Definition dec (n : Z) (k : Z) : float :=
  match n with
  | Z0 => zero
  | Zpos p => div (S754_finite false p 0) (S754_finite false (Z.to_pos (10 ^ k)) 0)
  | Zneg p => div (S754_finite true p 0) (S754_finite false (Z.to_pos (10 ^ k)) 0)
  end.

(** Round the exact quotient [n / d] ([0 <= n], [0 < d]) to the nearest
    integer, ties to even. *)
Definition div_half_even (n d : Z) : Z :=
  let q := n / d in
  let r := n mod d in
  match Z.compare (2 * r) d with
  | Lt => q
  | Gt => q + 1
  | Eq => if Z.even q then q else q + 1
  end.

(** [round(x, ndigits)] on a float, [0 <= ndigits]: the exact value of
    [x] is rounded half-to-even to [ndigits] decimals, and the decimal
    obtained is converted back to the nearest binary64 number.
    Infinities and NaN round to themselves; so do integral values. *)
Definition round (x : float) (ndigits : Z) : float :=
  match x with
  | S754_finite s m e =>
      if 0 <=? e then x
      else
        let k := div_half_even (Zpos m * 10 ^ ndigits) (2 ^ (- e)) in
        match k with
        | Zpos p =>
            div (S754_finite s p 0)
                (S754_finite false (Z.to_pos (10 ^ ndigits)) 0)
        | _ => S754_zero s
        end
  | _ => x
  end.

End Float.

Abbreviation float := Float.float.

(** ** Python numbers: [int] or [float] *)

Inductive pynum : Type :=
| PyInt (n : Z)
| PyFloat (f : float).

(** The operand of a mixed operation as a float; the conversion of an
    [int] is exact up to [2^53], far above any count of records. *)
Definition to_float (a : pynum) : float :=
  match a with
  | PyInt n => Float.of_Z n
  | PyFloat f => f
  end.

(** [a + b] *)
Definition py_add (a b : pynum) : pynum :=
  match a, b with
  | PyInt m, PyInt n => PyInt (m + n)
  | _, _ => PyFloat (Float.add (to_float a) (to_float b))
  end.

(** [a * b] *)
Definition py_mul (a b : pynum) : pynum :=
  match a, b with
  | PyInt m, PyInt n => PyInt (m * n)
  | _, _ => PyFloat (Float.mul (to_float a) (to_float b))
  end.

Definition py_is_zero (a : pynum) : bool :=
  match a with
  | PyInt n => n =? 0
  | PyFloat f => Float.is_zero f
  end.

(** [a / b]: true division, always a float, the correctly rounded
    quotient; a zero divisor raises. *)
Definition py_truediv (a b : pynum) : result pynum :=
  if py_is_zero b then Raise ZeroDivisionError
  else Ok (PyFloat (Float.div (to_float a) (to_float b))).

(** [a < b] *)
Definition py_lt (a b : pynum) : bool :=
  match a, b with
  | PyInt m, PyInt n => m <? n
  | _, _ => Float.ltb (to_float a) (to_float b)
  end.

(** [a == b] *)
Definition py_eq (a b : pynum) : bool :=
  match a, b with
  | PyInt m, PyInt n => m =? n
  | _, _ => Float.eqb (to_float a) (to_float b)
  end.

(** [round(a, ndigits)]: an [int] is returned unchanged for
    [0 <= ndigits]. *)
Definition py_round (a : pynum) (ndigits : Z) : pynum :=
  match a with
  | PyInt n => PyInt n
  | PyFloat f => PyFloat (Float.round f ndigits)
  end.

(** ** Python string operations *)

Module Str.

(** [len(s)] *)
Definition len (s : string) : Z := Z.of_nat (String.length s).

(** [s.split(sep)] for a one-character separator: never empty. *)
Fixpoint split (sep : ascii) (s : string) : list string :=
  match s with
  | EmptyString => [EmptyString]
  | String c s' =>
      if Ascii.eqb c sep then EmptyString :: split sep s'
      else
        match split sep s' with
        | w :: ws => String c w :: ws
        | [] => [String c EmptyString]
        end
  end.

Fixpoint find_from (c : ascii) (s : string) (i : Z) : Z :=
  match s with
  | EmptyString => -1
  | String d s' => if Ascii.eqb d c then i else find_from c s' (i + 1)
  end.

(** [s.find(c)]: index of the first occurrence, [-1] when absent. *)
Definition find (c : ascii) (s : string) : Z := find_from c s 0.

(** [s.count(c)] *)
Fixpoint count (c : ascii) (s : string) : Z :=
  match s with
  | EmptyString => 0
  | String d s' => (if Ascii.eqb d c then 1 else 0) + count c s'
  end.

(** ASCII characters for which [str.isspace] holds: tab to carriage
    return, the four separators 28..31 and the space. *)
Definition is_space (c : ascii) : bool :=
  let n := Z.of_nat (nat_of_ascii c) in
  ((9 <=? n) && (n <=? 13)) || ((28 <=? n) && (n <=? 32)).

Fixpoint lstrip (s : string) : string :=
  match s with
  | EmptyString => EmptyString
  | String c s' => if is_space c then lstrip s' else s
  end.

Fixpoint rstrip (s : string) : string :=
  match s with
  | EmptyString => EmptyString
  | String c s' =>
      match rstrip s' with
      | EmptyString => if is_space c then EmptyString else String c EmptyString
      | t => String c t
      end
  end.

(** [s.strip()] *)
Definition strip (s : string) : string := rstrip (lstrip s).

(** [sep.join(l)] *)
Definition join (sep : string) (l : list string) : string :=
  String.concat sep l.

Fixpoint drop (n : nat) (s : string) : string :=
  match n, s with
  | O, _ => s
  | S n', String _ s' => drop n' s'
  | S _, EmptyString => EmptyString
  end.

(** [s[-n:]] for [0 < n] *)
Definition last_chars (n : nat) (s : string) : string :=
  drop (String.length s - n) s.

(** [s.replace(old, new)] for a non-empty [old]: occurrences are
    replaced from the left, without overlap.  [skip] counts the
    characters of a matched occurrence still to be consumed. *)
Fixpoint replace_from (old new : string) (skip : nat) (s : string) : string :=
  match s with
  | EmptyString => EmptyString
  | String c s' =>
      match skip with
      | S k => replace_from old new k s'
      | O =>
          if String.prefix old s
          then (new ++ replace_from old new (String.length old - 1) s')%string
          else String c (replace_from old new 0 s')
      end
  end.

Definition replace (old new s : string) : string := replace_from old new 0 s.

Definition is_digit (c : ascii) : bool :=
  let n := Z.of_nat (nat_of_ascii c) in (48 <=? n) && (n <=? 57).

Fixpoint all_digits (s : string) : bool :=
  match s with
  | EmptyString => true
  | String c s' => is_digit c && all_digits s'
  end.

Definition digit_val (c : ascii) : Z := Z.of_nat (nat_of_ascii c) - 48.

Fixpoint int_of_digits_from (acc : Z) (s : string) : Z :=
  match s with
  | EmptyString => acc
  | String c s' => int_of_digits_from (10 * acc + digit_val c) s'
  end.

(** [int(s)] for a string of decimal digits. *)
Definition int_of_digits (s : string) : Z := int_of_digits_from 0 s.

End Str.

(** ** Dictionaries

    A [dict] keeps its keys in insertion order; assigning to a key that
    is present keeps its position. *)

Section Dict.
Context {V : Type}.

Definition dict : Type := list (string * V).

(** [d.get(k)] *)
Fixpoint dict_get (k : string) (d : dict) : option V :=
  match d with
  | [] => None
  | (k', v) :: d' => if String.eqb k k' then Some v else dict_get k d'
  end.

(** [d[k] = v] *)
Fixpoint dict_set (k : string) (v : V) (d : dict) : dict :=
  match d with
  | [] => [(k, v)]
  | (k', v') :: d' =>
      if String.eqb k k' then (k', v) :: d' else (k', v') :: dict_set k v d'
  end.

(** [d[k]] *)
Definition dict_item (k : string) (d : dict) : result V :=
  match dict_get k d with
  | Some v => Ok v
  | None => Raise KeyError
  end.

Definition dict_keys (d : dict) : list string := map fst d.
End Dict.

Arguments dict V : clear implicits.

(** ** Log records *)

(** A field of a [LogEntry] as Python sees it: the parser yields strings,
    callers of [write_report] may hand over numbers. *)
Inductive pyval : Type :=
| VStr (s : string)
| VNum (n : pynum).

Record LogEntry : Type := {
  remote_addr : string;
  remote_user : string;
  http_x_real_ip : string;
  time_local : string;
  request : string;
  status : string;
  body_bytes_sent : pyval;
  http_referer : string;
  http_user_agent : string;
  http_x_forwarded_for : string;
  http_X_REQUEST_ID : string;
  http_X_RB_USER : string;
  request_time : pyval
}.

(** ** [mediana] *)

(** [sorted(values)]: a stable sort that compares with [<] only.  Every
    stable comparison sort returns this list when [<] is a strict weak
    order on the elements, that is when no element is a NaN. *)
Fixpoint insert_sorted (x : float) (l : list float) : list float :=
  match l with
  | [] => [x]
  | y :: l' => if Float.ltb y x then y :: insert_sorted x l' else x :: l
  end.

Definition sorted (values : list float) : list float :=
  fold_right insert_sorted [] values.

(** [int(len(s_values) / 2)] is [len(s_values) // 2] for every length a
    list can have. *)
Definition mediana (values : list float) : result pynum :=
  match values with
  | [] => Ok (PyInt 0)
  | _ =>
      let s_values := sorted values in
      match nth_error s_values (Nat.div (List.length s_values) 2) with
      | Some v => Ok (PyFloat v)
      | None => Raise IndexError
      end
  end.

(** ** [write_report] *)

(** [url_counters[url]] *)
Record UrlCounters : Type := {
  count : Z;
  time_sum : pynum;
  time_max : pynum
}.

(** [total_counters] *)
Record TotalCounters : Type := {
  total_count : Z;
  total_time_sum : float
}.

(** The local state of the aggregation loop. *)
Record Counters : Type := {
  total_counters : TotalCounters;
  url_counters : dict UrlCounters;
  url_req_times : dict (list float)
}.

(** One element of [table_data]. *)
Module TableRow.
Record t : Type := {
  url : string;
  count : Z;
  count_perc : pynum;
  time_avg : pynum;
  time_max : pynum;
  time_med : pynum;
  time_perc : pynum;
  time_sum : pynum
}.
End TableRow.

Definition initial_counters : Counters :=
  {| total_counters := {| total_count := 0; total_time_sum := Float.zero |};
     url_counters := [];
     url_req_times := [] |}.

Definition new_url_counters : UrlCounters :=
  {| count := 0; time_sum := PyInt 0; time_max := PyInt 0 |}.

Section Report.

(** [float(s)] on a string: [None] stands for [ValueError]. *)
Variable float_of_str : string -> option float.

(** [float(v)] *)
Definition py_float (v : pyval) : result float :=
  match v with
  | VNum (PyFloat f) => Ok f
  | VNum (PyInt n) =>
      match Float.of_Z n with
      | S754_infinity _ => Raise OverflowError
      | f => Ok f
      end
  | VStr s =>
      match float_of_str s with
      | Some f => Ok f
      | None => Raise ValueError
      end
  end.

(** The body of [for log_line in log_parser].  A dictionary stored in
    [url_counters] is never empty, so [not url_counters.get(url)]
    holds exactly when the key is absent. *)
Definition aggregate (st : Counters) (log_line : LogEntry) : result Counters :=
  if Str.len (request log_line) =? 3 then Ok st
  else
    match firstn 2 (Str.split " " (request log_line)) with
    | [_; url] =>
        let '(counters0, times0) :=
          match dict_get url (url_counters st) with
          | Some _ => (url_counters st, url_req_times st)
          | None => (dict_set url new_url_counters (url_counters st),
                     dict_set url [] (url_req_times st))
          end in
        counters <- dict_item url counters0 ;;
        t <- py_float (request_time log_line) ;;
        times <- dict_item url times0 ;;
        let counters' :=
          {| count := count counters + 1;
             time_sum := py_add (time_sum counters) (PyFloat t);
             time_max := if py_lt (time_max counters) (PyFloat t)
                         then PyFloat t else time_max counters |} in
        let total := total_counters st in
        Ok {| total_counters :=
                {| total_count := total_count total + 1;
                   total_time_sum := Float.add (total_time_sum total) t |};
              url_counters := dict_set url counters' counters0;
              url_req_times := dict_set url (times ++ [t]) times0 |}
    | _ => Raise ValueError
    end.

(** The whole loop over the generator: an item of the generator is a
    record or the exception raised while producing it. *)
Fixpoint aggregate_all (st : Counters) (log_parser : list (result LogEntry))
  : result Counters :=
  match log_parser with
  | [] => Ok st
  | item :: rest =>
      log_line <- item ;;
      st' <- aggregate st log_line ;;
      aggregate_all st' rest
  end.

(** One dictionary of [table_data]; the entries are evaluated in the
    order of the dictionary display. *)
Definition table_row (st : Counters) (url : string) (counters : UrlCounters)
  : result TableRow.t :=
  let total := total_counters st in
  cp <- py_truediv (PyInt (count counters)) (PyInt (total_count total)) ;;
  ta <- py_truediv (time_sum counters) (PyInt (count counters)) ;;
  times <- dict_item url (url_req_times st) ;;
  med <- mediana times ;;
  tp <- py_truediv (time_sum counters) (PyFloat (total_time_sum total)) ;;
  Ok {| TableRow.url := url;
        TableRow.count := count counters;
        TableRow.count_perc := py_round (py_mul cp (PyInt 100)) 3;
        TableRow.time_avg := py_round ta 3;
        TableRow.time_max := time_max counters;
        TableRow.time_med := med;
        TableRow.time_perc := py_round (py_mul tp (PyInt 100)) 3;
        TableRow.time_sum := py_round (time_sum counters) 3 |}.

Fixpoint table_rows (st : Counters) (items : dict UrlCounters)
  : result (list TableRow.t) :=
  match items with
  | [] => Ok []
  | (url, counters) :: items' =>
      row <- table_row st url counters ;;
      rows <- table_rows st items' ;;
      Ok (row :: rows)
  end.

(** [table_data] after the loop over [url_counters.items()]. *)
Definition table_data (st : Counters) : result (list TableRow.t) :=
  table_rows st (url_counters st).

(** [write_report]: the table that is serialised into the template.
    [report_size] is a parameter of the function, as in the source. *)
Definition write_report (log_parser : list (result LogEntry))
  (report_size : pyval) : result (list TableRow.t) :=
  st <- aggregate_all initial_counters log_parser ;;
  table_data st.

End Report.

(** ** [log_parser] *)

Definition dquote : ascii := ascii_of_nat 34.
Definition newline : ascii := ascii_of_nat 10.

(** The first test of the chain in the loop over [parts]: the part has no
    quote or is quoted on both sides, does not start with a bracket and
    its first closing bracket is not its last character. *)
Definition is_single_value (part : string) : bool :=
  ((Str.find dquote part <? 0) || (Str.count dquote part =? 2))
  && negb (Str.find "[" part =? 0)
  && negb (Str.find "]" part =? Str.len part - 1).

(** One iteration of [for part in parts], on the pair
    [(log_values, multiword_value)]. *)
Definition tokenize_part (st : list string * list string) (part : string)
  : list string * list string :=
  let '(log_values, multiword_value) := st in
  if is_single_value part then
    if 0 <? Z.of_nat (List.length multiword_value)
    then (log_values, multiword_value ++ [part])
    else (log_values ++ [Str.strip part], multiword_value)
  else if (Str.find dquote part =? 0) || (Str.find "[" part =? 0) then
    (log_values, multiword_value ++ [part])
  else if (0 <? Str.find dquote part) || (0 <? Str.find "]" part) then
    (log_values ++ [Str.join " " (multiword_value ++ [part])], [])
  else st.

(** [parts]: the pieces between spaces, the empty ones dropped. *)
Definition line_parts (log_line : string) : list string :=
  filter (fun p => negb (String.eqb p "")) (Str.split " " log_line).

(** [log_values] once the loop over the parts of a line has ended. *)
Definition tokenize (log_line : string) : list string :=
  fst (fold_left tokenize_part (line_parts log_line) ([], [])).

(** The [LogEntry(...)] that is yielded: [log_values[0]] to
    [log_values[12]], an [IndexError] when one of them is missing. *)
Definition decode (log_values : list string) : result LogEntry :=
  match log_values with
  | v0 :: v1 :: v2 :: v3 :: v4 :: v5 :: v6 :: v7 :: v8 :: v9 :: v10 :: v11
      :: v12 :: _ =>
      Ok {| remote_addr := v0; remote_user := v1; http_x_real_ip := v2;
            time_local := v3; request := v4; status := v5;
            body_bytes_sent := VStr v6; http_referer := v7;
            http_user_agent := v8; http_x_forwarded_for := v9;
            http_X_REQUEST_ID := v10; http_X_RB_USER := v11;
            request_time := VStr v12 |}
  | _ => Raise IndexError
  end.

(** The generator over the lines that [readline] returns; an empty
    string is the end of the file. *)
Fixpoint log_parser (lines : list string) : list (result LogEntry) :=
  match lines with
  | [] => []
  | log_line :: rest =>
      if String.eqb log_line "" then []
      else decode (tokenize log_line) :: log_parser rest
  end.

(** ** [parse_config] *)

(** The loop over the lines of the config file; [None] is the
    [return None] of a line without separator. *)
Fixpoint read_user_config (lines : list string) (user_config : dict string)
  : option (dict string) :=
  match lines with
  | [] => Some user_config
  | line :: rest =>
      match Str.split "=" line with
      | p0 :: p1 :: _ =>
          read_user_config rest
            (dict_set (Str.strip p0) (Str.strip p1) user_config)
      | _ => None
      end
  end.

(** [not user_config.get(param)]: the key is absent or its value is the
    empty string. *)
Definition missing_param (user_config : dict string) (param : string) : bool :=
  match dict_get param user_config with
  | None => true
  | Some v => String.eqb v ""
  end.

Definition fill_defaults (default user_config : dict string) : dict string :=
  fold_left
    (fun uc pv => if missing_param uc (fst pv) then dict_set (fst pv) (snd pv) uc else uc)
    default user_config.

(** [parse_config]: [file] is the list of lines of the file at
    [file_path], [None] when opening it raises [FileNotFoundError]. *)
Definition parse_config (file : option (list string)) (default : dict string)
  : option (dict string) :=
  match file with
  | None => None
  | Some lines =>
      match read_user_config lines [] with
      | None => None
      | Some user_config => Some (fill_defaults default user_config)
      end
  end.

(** The module-level default [config]. *)
Definition config : dict string :=
  [("REPORT_SIZE", "1000"); ("REPORT_DIR", "./reports");
   ("LOG_DIR", "./log"); ("REGISTRY_FILE", ".processed.txt")].

(** ** [get_last_log_file] *)

(** A [datetime] at midnight, which is all that [strptime] with the
    format [%Y%m%d] produces. *)
Record datetime : Type := { year : Z; month : Z; day : Z }.

(** [datetime.min] *)
Definition datetime_min : datetime := {| year := 1; month := 1; day := 1 |}.

(** [a > b] *)
Definition datetime_gtb (a b : datetime) : bool :=
  (year b <? year a)
  || ((year b =? year a)
      && ((month b <? month a)
          || ((month b =? month a) && (day b <? day a)))).

Definition is_leap (y : Z) : bool :=
  (y mod 4 =? 0) && (negb (y mod 100 =? 0) || (y mod 400 =? 0)).

Definition days_in_month (y m : Z) : Z :=
  if m =? 2 then (if is_leap y then 29 else 28)
  else if (m =? 4) || (m =? 6) || (m =? 9) || (m =? 11) then 30
  else 31.

(** [datetime.strptime(s, "%Y%m%d")] for a string of eight digits: four
    digits of year, two of month, two of day; a [ValueError] unless they
    name a day of the calendar of the years 1 to 9999. *)
Definition strptime_Ymd (s : string) : result datetime :=
  let y := Str.int_of_digits (String.substring 0 4 s) in
  let m := Str.int_of_digits (String.substring 4 2 s) in
  let d := Str.int_of_digits (String.substring 6 2 s) in
  if (1 <=? y) && (1 <=? m) && (m <=? 12) && (1 <=? d) && (d <=? days_in_month y m)
  then Ok {| year := y; month := m; day := d |}
  else Raise ValueError.

(** What may follow the date for [(.gz)*$]: groups of one character
    other than a newline and the letters [gz], then the end of the
    string or one final newline. *)
Fixpoint gz_suffixes (s : string) : bool :=
  match s with
  | EmptyString => true
  | String c EmptyString => Ascii.eqb c newline
  | String c (String g (String z rest)) =>
      negb (Ascii.eqb c newline) && Ascii.eqb g "g" && Ascii.eqb z "z"
      && gz_suffixes rest
  | _ => false
  end.

(** [log_file_pttn.match(name)] for the pattern
    [^nginx-access-ui.log-[\d]{8}(.gz)*$]; the dot of the pattern stands
    for any character but a newline. *)
Definition log_file_pttn (name : string) : bool :=
  String.prefix "nginx-access-ui" name
  && match String.get 15 name with
     | Some c => negb (Ascii.eqb c newline)
     | None => false
     end
  && String.eqb (String.substring 16 4 name) "log-"
  && (String.length (String.substring 20 8 name) =? 8)%nat
  && Str.all_digits (String.substring 20 8 name)
  && gz_suffixes (Str.drop 28 name).

(** [date_pattern.match(log_date)] for the pattern [\d{8}]. *)
Definition date_pattern (log_date : string) : bool :=
  (String.length (String.substring 0 8 log_date) =? 8)%nat
  && Str.all_digits (String.substring 0 8 log_date).

(** [os.path.join(a, b)] *)
Definition path_join (a b : string) : string :=
  if String.prefix "/" b then b
  else if String.eqb a "" then b
  else if String.eqb (Str.last_chars 1 a) "/" then (a ++ b)%string
  else (a ++ "/" ++ b)%string.

(** [os.path.basename(p)] *)
Fixpoint basename (p : string) : string :=
  match p with
  | EmptyString => EmptyString
  | String c p' =>
      if Ascii.eqb c "/" then basename p'
      else if (0 <=? Str.find "/" p') then basename p'
      else p
  end.

Record LogFile : Type := { file : string; date : datetime }.

(** [log_file in processed_logs] *)
Definition is_processed (log_file : string) (processed_logs : list string) : bool :=
  existsb (String.eqb log_file) processed_logs.

(** The loop [for log_file in log_files] on the pair
    [(max_date, last_log_file)]; [Ok None] is its [return None]. *)
Fixpoint scan_log_files (processed_logs log_files : list string)
  (max_date : datetime) (last_log_file : option string)
  : result (option (datetime * option string)) :=
  match log_files with
  | [] => Ok (Some (max_date, last_log_file))
  | log_file :: rest =>
      if is_processed log_file processed_logs
      then scan_log_files processed_logs rest max_date last_log_file
      else
        let log_date := Str.last_chars 8 (Str.replace ".gz" "" log_file) in
        if date_pattern log_date then
          log_date_d <- strptime_Ymd log_date ;;
          if datetime_gtb log_date_d max_date
          then scan_log_files processed_logs rest log_date_d (Some log_file)
          else scan_log_files processed_logs rest max_date last_log_file
        else Ok None
  end.

(** [get_last_log_file]: [registry] holds the lines of the registry file
    when it exists, [entries] the names in [log_dir] with their
    [is_dir()]. *)
Definition get_last_log_file (log_dir : string) (registry : option (list string))
  (entries : list (string * bool)) : result (option LogFile) :=
  let processed_logs :=
    match registry with
    | Some lines => map Str.strip lines
    | None => []
    end in
  let log_files :=
    map fst (filter (fun f => negb (snd f) && log_file_pttn (fst f)) entries) in
  r <- scan_log_files processed_logs log_files datetime_min None ;;
  match r with
  | None => Ok None
  | Some (max_date, last_log_file) =>
      match last_log_file with
      | None => Ok None
      | Some name =>
          if String.eqb name "" then Ok None
          else Ok (Some {| file := path_join log_dir name; date := max_date |})
      end
  end.

(** ** [main] *)

(** The files that a run reads.  [config_lines p] and [registry_lines p]
    are [None] when no file exists at [p]; a log file is read line by
    line, through [gzip] when its name ends in [.gz]. *)
Record World : Type := {
  config_lines : string -> option (list string);
  registry_lines : string -> option (list string);
  iterdir : string -> list (string * bool);
  log_lines : string -> list string
}.

(** How a run ends: [sys.exit], an exception that nothing catches, or a
    report written for the log of [log_date] and the name appended to
    the registry. *)
Inductive outcome : Type :=
| SysExit (code : Z)
| Uncaught (e : exn)
| Reported (log_date : datetime) (table : list TableRow.t) (processed : string).

Section Main.

Variable float_of_str : string -> option float.

(** The part of [main] after the configuration has been read. *)
Definition process (w : World) (user_config : dict string) : result outcome :=
  log_dir <- dict_item "LOG_DIR" user_config ;;
  registry_name <- dict_item "REGISTRY_FILE" user_config ;;
  let registry_file := path_join log_dir registry_name in
  last_log_file <- get_last_log_file log_dir (registry_lines w registry_file)
                     (iterdir w log_dir) ;;
  match last_log_file with
  | None => Ok (SysExit 0)
  | Some lf =>
      let log_parser_gen := log_parser (log_lines w (file lf)) in
      _ <- dict_item "REPORT_DIR" user_config ;;
      report_size <- dict_item "REPORT_SIZE" user_config ;;
      table <- write_report float_of_str log_parser_gen (VStr report_size) ;;
      Ok (Reported (date lf) table (basename (file lf)))
  end.

(** [main(args)] with [args.config = config_path]; [sys.exit] with a
    message ends the process with status 1. *)
Definition main (w : World) (config_path : string) : outcome :=
  match parse_config (config_lines w config_path) config with
  | None => SysExit 1
  | Some [] => SysExit 1
  | Some user_config =>
      match process w user_config with
      | Ok o => o
      | Raise e => Uncaught e
      end
  end.

End Main.

(** ** Vocabulary of the specification *)

(** [sum(times)]: the additions from the left, starting at the integer
    [0]. *)
Definition py_sum (times : list float) : pynum :=
  fold_left (fun acc t => py_add acc (PyFloat t)) times (PyInt 0).

(** [max(times)]: the first element, replaced by each later element that
    is greater; [None] for the empty list. *)
Definition py_max (times : list float) : option float :=
  match times with
  | [] => None
  | t :: rest => Some (fold_left (fun m x => if Float.ltb m x then x else m) rest t)
  end.

(** [0 <= t] *)
Definition nonneg (t : float) : bool := Float.leb Float.zero t.

(** The sum of the [count] of all URLs. *)
Definition sum_counts (d : dict UrlCounters) : Z :=
  fold_right (fun kv acc => count (snd kv) + acc) 0 d.

(** The sum of the [time_sum] of all URLs, in the order of the
    dictionary. *)
Definition sum_time_sums (d : dict UrlCounters) : pynum :=
  fold_left (fun acc kv => py_add acc (time_sum (snd kv))) d (PyInt 0).

(** The elements of a list in the order of their first occurrence. *)
Definition seen_step (acc : list string) (u : string) : list string :=
  if existsb (String.eqb u) acc then acc else acc ++ [u].

Definition first_seen (l : list string) : list string :=
  fold_left seen_step l [].


(** No element is a NaN. *)
Definition no_nan (l : list float) : Prop :=
  Forall (fun v => Float.is_nan v = false) l.

(** Every element is at most every element after it. *)
Definition nondecreasing (l : list float) : Prop :=
  StronglySorted (fun a b => Float.leb a b = true) l.

(** The number of pieces of a request line. *)
Definition request_tokens (req : string) : nat :=
  List.length (Str.split " " req).

Section Accepted.

Variable float_of_str : string -> option float.

(** The URL and the request time that a record of the generator adds
    to the counters; [None] for a record that adds nothing. *)
Definition accepted (item : result LogEntry) : option (string * float) :=
  match item with
  | Ok log_line =>
      if Str.len (request log_line) =? 3 then None
      else
        match firstn 2 (Str.split " " (request log_line)),
              py_float float_of_str (request_time log_line) with
        | [_; url], Ok t => Some (url, t)
        | _, _ => None
        end
  | Raise _ => None
  end.

Fixpoint accepted_records (log_parser : list (result LogEntry))
  : list (string * float) :=
  match log_parser with
  | [] => []
  | item :: rest =>
      match accepted item with
      | Some ut => ut :: accepted_records rest
      | None => accepted_records rest
      end
  end.

Definition accepted_times (log_parser : list (result LogEntry)) : list float :=
  map snd (accepted_records log_parser).

Definition accepted_urls (log_parser : list (result LogEntry)) : list string :=
  map fst (accepted_records log_parser).

End Accepted.

(** Invariants of the loop of [write_report]. *)

Definition max_agrees (tm : pynum) (times : list float) : Prop :=
  exists m, py_max times = Some m
    /\ ((tm = PyFloat m /\ Float.is_nan m = false)
        \/ (tm = PyInt 0 /\ Float.is_zero m = true)).

Definition counters_inv (st : Counters) : Prop :=
  NoDup (dict_keys (url_counters st))
  /\ dict_keys (url_counters st) = dict_keys (url_req_times st)
  /\ total_count (total_counters st) = sum_counts (url_counters st)
  /\ forall url c, dict_get url (url_counters st) = Some c ->
       exists times, dict_get url (url_req_times st) = Some times
         /\ times <> []
         /\ count c = Z.of_nat (List.length times)
         /\ time_sum c = py_sum times.

Definition max_inv (st : Counters) : Prop :=
  forall url c times,
    dict_get url (url_counters st) = Some c ->
    dict_get url (url_req_times st) = Some times ->
    max_agrees (time_max c) times.

(** ** Test data *)

(** A literal with ['] standing for the double quote. *)
Fixpoint quoted (s : string) : string :=
  match s with
  | EmptyString => EmptyString
  | String c s' => String (if Ascii.eqb c "'" then dquote else c) (quoted s')
  end.

Definition nl : string := String newline EmptyString.

(** The records of [test_write_report]. *)
Definition test_entry (req : string) (t : float) : LogEntry :=
  {| remote_addr := ""; remote_user := ""; http_x_real_ip := "";
     time_local := ""; request := req; status := "200 OK";
     body_bytes_sent := VNum (PyInt 100500); http_referer := "";
     http_user_agent := ""; http_x_forwarded_for := "";
     http_X_REQUEST_ID := ""; http_X_RB_USER := "";
     request_time := VNum (PyFloat t) |}.

Definition test_log_parser : list (result LogEntry) :=
  [Ok (test_entry "GET /page1 0.1" (Float.dec 1 1));
   Ok (test_entry "GET /page1 0.2" (Float.dec 2 1));
   Ok (test_entry "GET /page2 0.3" (Float.dec 3 1));
   Ok (test_entry "GET /page3 0.4" (Float.dec 4 1))].

Definition test_row (u : string) (n : Z) (cp avg mx med sm pc : float) : TableRow.t :=
  {| TableRow.url := u; TableRow.count := n; TableRow.count_perc := PyFloat cp;
     TableRow.time_avg := PyFloat avg; TableRow.time_max := PyFloat mx;
     TableRow.time_med := PyFloat med; TableRow.time_perc := PyFloat pc;
     TableRow.time_sum := PyFloat sm |}.

(** The table that the test expects. *)
Definition expected_table_data : list TableRow.t :=
  [test_row "/page1" 2 (Float.dec 500 1) (Float.dec 15 2) (Float.dec 2 1)
            (Float.dec 2 1) (Float.dec 3 1) (Float.dec 300 1);
   test_row "/page2" 1 (Float.dec 250 1) (Float.dec 3 1) (Float.dec 3 1)
            (Float.dec 3 1) (Float.dec 3 1) (Float.dec 300 1);
   test_row "/page3" 1 (Float.dec 250 1) (Float.dec 4 1) (Float.dec 4 1)
            (Float.dec 4 1) (Float.dec 4 1) (Float.dec 400 1)].

(** The directory of [test_get_last_log_file_found]. *)
Definition test_entries : list (string * bool) :=
  [("nginx-access-ui.log-20230301", false);
   ("nginx-access-ui.log-20230302.gz", false);
   ("nginx-access-ui.log-20230303.gz", false)].

(** The counters after a record for [url] with request time [t] has
    been added. *)
Definition record_time (st : Counters) (url : string) (t : float) : Counters :=
  let counters :=
    match dict_get url (url_counters st) with
    | Some c => c
    | None => new_url_counters
    end in
  let times :=
    match dict_get url (url_req_times st) with
    | Some ts => ts
    | None => []
    end in
  {| total_counters :=
       {| total_count := total_count (total_counters st) + 1;
          total_time_sum := Float.add (total_time_sum (total_counters st)) t |};
     url_counters :=
       dict_set url
         {| count := count counters + 1;
            time_sum := py_add (time_sum counters) (PyFloat t);
            time_max := if py_lt (time_max counters) (PyFloat t)
                        then PyFloat t else time_max counters |}
         (url_counters st);
     url_req_times := dict_set url (times ++ [t]) (url_req_times st) |}.

(** A state in which a URL has no recorded time. *)
Definition no_times_counters : UrlCounters :=
  {| count := 1; time_sum := PyFloat Float.zero; time_max := PyInt 0 |}.

Definition no_times_state : Counters :=
  {| total_counters := {| total_count := 1; total_time_sum := Float.of_Z 1 |};
     url_counters := [("/a", no_times_counters)];
     url_req_times := [("/a", [])] |}.

(** An instance of [float] on strings, for the plain decimal notation
    that nginx writes for [$request_time]: optional blanks around an
    optional sign and digits with at most one point.  The other
    notations that Python reads (exponents, [inf], [nan]) are not
    needed by the examples below. *)
Fixpoint decimal_digits (s : string) (n k : Z) (seen_dot seen_digit : bool)
  : option (Z * Z) :=
  match s with
  | EmptyString => if seen_digit then Some (n, k) else None
  | String c s' =>
      if Str.is_digit c then
        decimal_digits s' (10 * n + Str.digit_val c)
          (if seen_dot then k + 1 else k) seen_dot true
      else if Ascii.eqb c "." then
        if seen_dot then None else decimal_digits s' n k true seen_digit
      else None
  end.

Definition float_of_decimal (s : string) : option float :=
  let unsigned (r : string) :=
    match decimal_digits r 0 0 false false with
    | Some (n, k) => Some (Float.dec n k)
    | None => None
    end in
  match Str.strip s with
  | String "-" r => option_map SFopp (unsigned r)
  | String "+" r => unsigned r
  | r => unsigned r
  end.

(** A record as [log_parser] yields it: the request and the request
    time are text. *)
Definition parsed_entry (req t : string) : LogEntry :=
  {| remote_addr := "1.196.116.32"; remote_user := "-"; http_x_real_ip := "-";
     time_local := "[29/Jun/2017:03:50:22 +0300]"; request := req;
     status := "200"; body_bytes_sent := VStr "927"; http_referer := quoted "'-'";
     http_user_agent := quoted "'-'"; http_x_forwarded_for := quoted "'-'";
     http_X_REQUEST_ID := quoted "'-'"; http_X_RB_USER := quoted "'-'";
     request_time := VStr t |}.

(** Three records on two URLs whose request times do not add up the
    same way in both groupings. *)
Definition regrouped_log_parser : list (result LogEntry) :=
  [Ok (test_entry "GET /a" (Float.dec 1 1));
   Ok (test_entry "GET /b" (Float.dec 2 1));
   Ok (test_entry "GET /a" (Float.dec 4 1))].

(** One record that took no measurable time. *)
Definition zero_time_log_parser : list (result LogEntry) :=
  [Ok (parsed_entry (quoted "'GET /index.html HTTP/1.1'") "0.000")].

(** A line of an access log, and a line cut short. *)
Definition full_line : string :=
  (quoted "1.196.116.32 -  - [29/Jun/2017:03:50:22 +0300] 'GET /api/v2/banner/25019354 HTTP/1.1' 200 927 '-' 'Lynx/2.8.8dev.9 libwww-FM/2.14 SSL-MM/1.4.1 GNUTLS/2.10.5' '-' '1498697422-2190034393-4708-9752759' 'dc7161be3' 0.390"
   ++ nl)%string.

Definition short_line : string :=
  (quoted "1.196.116.32 -  - [29/Jun/2017:03:50:22 +0300] 'GET /api/v2/banner/25019354 HTTP/1.1' 200 927"
   ++ nl)%string.

(** The date that the loop of [get_last_log_file] reads in a file name:
    its last eight characters once every [.gz] is removed, when they are
    digits that name a day. *)
Definition embedded_date (name : string) : option datetime :=
  let log_date := Str.last_chars 8 (Str.replace ".gz" "" name) in
  if date_pattern log_date then
    match strptime_Ymd log_date with
    | Ok d => Some d
    | Raise _ => None
    end
  else None.

(** The names of [log_dir] that match the pattern and are not listed in
    the registry, in the order of the directory. *)
Definition candidates (registry : option (list string))
  (entries : list (string * bool)) : list string :=
  let processed_logs :=
    match registry with
    | Some lines => map Str.strip lines
    | None => []
    end in
  filter (fun f => negb (is_processed f processed_logs))
    (map fst (filter (fun f => negb (snd f) && log_file_pttn (fst f)) entries)).

(** A run on one log file that contains [lines], with an empty config
    file and no registry. *)
Definition one_log_world (lines : list string) : World :=
  {| config_lines := fun _ => Some [];
     registry_lines := fun _ => None;
     iterdir := fun _ => [("nginx-access-ui.log-20170630", false)];
     log_lines := fun _ => lines |}.

(** ** Vocabulary for the tokenizer *)


(** The second test of the chain: the part starts with a quote or an
    opening bracket. *)
Definition starts_span (p : string) : bool :=
  (Str.find dquote p =? 0) || (Str.find "[" p =? 0).

(** The third test of the chain: a quote or a closing bracket after the
    first character. *)
Definition ends_span (p : string) : bool :=
  (0 <? Str.find dquote p) || (0 <? Str.find "]" p).

(** The parts that open a multi-word value, that are added to an open
    one, and that close one. *)
Definition span_opens (p : string) : bool :=
  negb (is_single_value p) && starts_span p.

Definition span_continues (p : string) : bool :=
  is_single_value p || starts_span p.

Definition span_closes (p : string) : bool :=
  negb (is_single_value p) && negb (starts_span p) && ends_span p.

(** ** Vocabulary for the aggregation *)

(** The request times of the records of one URL, in the order of the
    input. *)
Definition times_for (url : string) (records : list (string * float)) : list float :=
  map snd (filter (fun ut => String.eqb url (fst ut)) records).

(** The maximum as the loop keeps it: it starts at the integer [0] and
    is replaced by each time that is greater. *)
Definition running_max (times : list float) : pynum :=
  fold_left (fun m t => if py_lt m (PyFloat t) then PyFloat t else m) times (PyInt 0).

(** The counters of a URL with the given request times. *)
Definition url_summary (times : list float) : UrlCounters :=
  {| count := Z.of_nat (List.length times);
     time_sum := py_sum times;
     time_max := running_max times |}.

(** The counters that a list of (URL, request time) pairs amounts to:
    the URLs in the order of their first occurrence, each with the
    summary of its times, and the totals over all pairs. *)
Definition summary_state (records : list (string * float)) : Counters :=
  {| total_counters :=
       {| total_count := Z.of_nat (List.length records);
          total_time_sum := fold_left Float.add (map snd records) Float.zero |};
     url_counters :=
       map (fun u => (u, url_summary (times_for u records)))
           (first_seen (map fst records));
     url_req_times :=
       map (fun u => (u, times_for u records)) (first_seen (map fst records)) |}.

(** The counters agree with the summary of the pairs counted so far. *)
Definition summary_inv (st : Counters) (records : list (string * float)) : Prop :=
  total_counters st
  = {| total_count := Z.of_nat (List.length records);
       total_time_sum := fold_left Float.add (map snd records) Float.zero |}
  /\ dict_keys (url_counters st) = first_seen (map fst records)
  /\ forall url,
       dict_get url (url_req_times st)
       = match times_for url records with
         | [] => None
         | ts => Some ts
         end
       /\ forall c, dict_get url (url_counters st) = Some c ->
                    c = url_summary (times_for url records).

(** The sum of the [count] of the rows of a table. *)
Definition rows_count (rows : list TableRow.t) : Z :=
  fold_right (fun r acc => TableRow.count r + acc) 0 rows.

(** ** [mark_as_processed] and the resources of the report *)

Definition carriage_return : ascii := ascii_of_nat 13.

(** [f.readlines()] on the text of a file opened for reading in text
    mode: the lines with their ends, where a line ends with a line
    feed, a carriage return or both, each read as one line feed. *)
Fixpoint readlines (content : string) : list string :=
  match content with
  | EmptyString => []
  | String c rest =>
      if Ascii.eqb c newline then nl :: readlines rest
      else if Ascii.eqb c carriage_return then
        match rest with
        | String c' rest' =>
            if Ascii.eqb c' newline then nl :: readlines rest'
            else nl :: readlines rest
        | EmptyString => [nl]
        end
      else
        match readlines rest with
        | line :: lines => String c line :: lines
        | [] => [String c EmptyString]
        end
  end.

(** [mark_as_processed]: the text of the registry file afterwards.
    [registry] is its text before, [None] when there is no such file;
    the mode [a+] creates the file when needed and writes at its end. *)
Definition mark_as_processed (log_file : string) (registry : option string)
  : string :=
  ((match registry with Some text => text | None => "" end)
   ++ nl ++ basename log_file)%string.

(** A name without line end or slash and without blanks around it, as
    the entries of a directory listing are. *)
Definition clean_name (f : string) : Prop :=
  f <> ""
  /\ Str.find "/" f = -1
  /\ Str.find newline f = -1
  /\ Str.find carriage_return f = -1
  /\ Str.strip f = f.

(** The files that matter for the resources: the content at a path,
    [None] where there is no file. *)
Definition files : Type := string -> option string.

(** [os.path.exists(p)] *)
Definition path_exists (fs : files) (p : string) : bool :=
  match fs p with
  | Some _ => true
  | None => false
  end.

(** The outcome of an operation on files: done, or the [OSError] for a
    path. *)
Inductive os_result (A : Type) : Type :=
| Done (a : A)
| OSError (path : string).

Arguments Done {A} a.
Arguments OSError {A} path.

(** [shutil.copy(src, dst)] for the path of a file as [dst]: the source
    is opened first, which fails when no file is there. *)
Definition shutil_copy (fs : files) (src dst : string) : os_result files :=
  match fs src with
  | Some content => Done (fun p => if String.eqb p dst then Some content else fs p)
  | None => OSError src
  end.

(** [_copy_report_resources] *)
Fixpoint _copy_report_resources (fs : files) (report_dir : string)
  (resources : list string) : os_result files :=
  match resources with
  | [] => Done fs
  | resource :: rest =>
      let resource_file := path_join "resources/" resource in
      let target_file := path_join report_dir (basename resource) in
      if negb (path_exists fs resource_file) then
        match shutil_copy fs resource_file target_file with
        | Done fs' => _copy_report_resources fs' report_dir rest
        | OSError p => OSError p
        end
      else _copy_report_resources fs report_dir rest
  end.

(** The result of [strptime] as an option. *)
Definition day_of (r : result datetime) : option datetime :=
  match r with
  | Ok d => Some d
  | Raise _ => None
  end.

(** * Properties *)

(** ** Comparison of floats *)

Lemma SFcompare_antisym (a b : float) :
  SFcompare b a = option_map CompOpp (SFcompare a b).
Proof.
  destruct a as [s1|s1| |s1 m1 e1], b as [s2|s2| |s2 m2 e2]; cbn;
    try destruct s1; try destruct s2; cbn; try reflexivity.
  - rewrite (Z.compare_antisym e1 e2).
    change (Pos.compare_cont Eq m2 m1) with (Pos.compare m2 m1).
    change (Pos.compare_cont Eq m1 m2) with (Pos.compare m1 m2).
    rewrite (Pos.compare_antisym m1 m2).
    destruct (e1 ?= e2), (m1 ?= m2)%positive; reflexivity.
  - rewrite (Z.compare_antisym e1 e2).
    change (Pos.compare_cont Eq m2 m1) with (Pos.compare m2 m1).
    change (Pos.compare_cont Eq m1 m2) with (Pos.compare m1 m2).
    rewrite (Pos.compare_antisym m1 m2).
    destruct (e1 ?= e2), (m1 ?= m2)%positive; reflexivity.
Qed.


Lemma SFcompare_refl (a : float) : Float.is_nan a = false -> SFcompare a a = Some Eq.
Proof.
  destruct a as [s|s| |s m e]; cbn; intros H; try discriminate;
    destruct s; try reflexivity;
    rewrite Z.compare_refl;
    change (Pos.compare_cont Eq m m) with (Pos.compare m m);
    rewrite Pos.compare_refl; reflexivity.
Qed.

Lemma eqb_refl (a : float) : Float.is_nan a = false -> Float.eqb a a = true.
Proof.
  intros H. unfold Float.eqb, SFeqb. rewrite (SFcompare_refl a H). reflexivity.
Qed.

(** A zero compares like the zero of either sign. *)
Lemma ltb_zero_l (m t : float) :
  Float.is_zero m = true -> Float.ltb m t = Float.ltb Float.zero t.
Proof.
  destruct m; cbn; intros H; try discriminate. destruct t; reflexivity.
Qed.

Lemma nonneg_not_pos_is_zero (t : float) :
  nonneg t = true -> Float.ltb Float.zero t = false -> Float.is_zero t = true.
Proof.
  unfold nonneg, Float.leb, Float.ltb, SFleb, SFltb, Float.zero.
  destruct t as [s|s| |s m e]; cbn; try destruct s; cbn; congruence.
Qed.

Lemma nonneg_not_nan (t : float) : nonneg t = true -> Float.is_nan t = false.
Proof. destruct t; cbn; congruence. Qed.

(** ** [sorted] *)

Lemma insert_sorted_perm (x : float) (l : list float) :
  Permutation (x :: l) (insert_sorted x l).
Proof.
  induction l as [|y l IH]; cbn.
  - apply Permutation_refl.
  - destruct (Float.ltb y x).
    + eapply perm_trans; [apply perm_swap|]. apply perm_skip. exact IH.
    + apply Permutation_refl.
Qed.

Lemma sorted_perm (values : list float) : Permutation values (sorted values).
Proof.
  induction values as [|x l IH]; cbn.
  - apply perm_nil.
  - eapply perm_trans; [apply perm_skip; exact IH|]. apply insert_sorted_perm.
Qed.



Lemma leb_trans (a b c : float) :
  Float.leb a b = true -> Float.leb b c = true -> Float.leb a c = true.
Proof.
  unfold Float.leb, SFleb.
  destruct a as [sa|sa| |sa ma ea], b as [sb|sb| |sb mb eb], c as [sc|sc| |sc mc ec];
    cbn; try discriminate;
    try destruct sa; try destruct sb; try destruct sc; cbn;
    try congruence.
  all: change (Pos.compare_cont Eq ?x ?y) with (Pos.compare x y).
  all: destruct (Z.compare_spec ea eb), (Z.compare_spec eb ec), (Z.compare_spec ea ec);
      try lia; cbn; try congruence.
  all: destruct (Pos.compare_spec ma mb), (Pos.compare_spec mb mc), (Pos.compare_spec ma mc);
      try lia; cbn; try congruence.
Qed.

Lemma ltb_leb (a b : float) : Float.ltb a b = true -> Float.leb a b = true.
Proof.
  unfold Float.ltb, Float.leb, SFltb, SFleb.
  destruct (SFcompare a b) as [[ | | ]|]; congruence.
Qed.

Lemma not_ltb_leb (a b : float) :
  Float.is_nan a = false -> Float.is_nan b = false ->
  Float.ltb b a = false -> Float.leb a b = true.
Proof.
  intros Ha Hb.
  assert (Hc : exists c, SFcompare a b = Some c).
  { destruct a, b; cbn in *; try discriminate; eexists; reflexivity. }
  destruct Hc as [c Hc].
  unfold Float.ltb, Float.leb, SFltb, SFleb.
  rewrite (SFcompare_antisym a b), Hc. destruct c; cbn; congruence.
Qed.

Lemma insert_sorted_nondecreasing (x : float) (l : list float) :
  Float.is_nan x = false -> no_nan l ->
  nondecreasing l -> nondecreasing (insert_sorted x l).
Proof.
  unfold nondecreasing, no_nan. intros Hx.
  induction l as [|y l IH]; cbn; intros Hnan Hs.
  - repeat constructor.
  - inversion Hnan as [|? ? Hy Hl]; subst.
    inversion Hs as [|? ? Hs' Hall]; subst.
    destruct (Float.ltb y x) eqn:Hyx.
    + constructor; [apply IH; assumption|].
      eapply Permutation_Forall; [apply insert_sorted_perm|].
      constructor; [apply ltb_leb; exact Hyx|exact Hall].
    + constructor; [exact Hs|].
      assert (Hxy : Float.leb x y = true) by (apply not_ltb_leb; assumption).
      constructor; [exact Hxy|].
      eapply Forall_impl; [|exact Hall].
      intros z Hz. eapply leb_trans; eassumption.
Qed.

Lemma sorted_no_nan values : no_nan values -> no_nan (sorted values).
Proof. intros H. eapply Permutation_Forall; [apply sorted_perm|exact H]. Qed.

Lemma sorted_nondecreasing (values : list float) :
  no_nan values -> nondecreasing (sorted values).
Proof.
  induction values as [|x l IH]; cbn; intros H.
  - constructor.
  - inversion H; subst. apply insert_sorted_nondecreasing; auto.
    apply sorted_no_nan. assumption.
Qed.

Lemma sorted_length (values : list float) :
  List.length (sorted values) = List.length values.
Proof. symmetry. apply Permutation_length. apply sorted_perm. Qed.

Lemma mediana_nonempty (values : list float) :
  values <> [] ->
  exists v,
    nth_error (sorted values) (Nat.div (List.length values) 2) = Some v
    /\ mediana values = Ok (PyFloat v).
Proof.
  intros Hne.
  assert (Hlt : (Nat.div (List.length values) 2 < List.length (sorted values))%nat).
  { rewrite sorted_length. destruct values as [|x l]; [congruence|].
    apply Nat.div_lt; cbn; lia. }
  destruct (nth_error (sorted values) (Nat.div (List.length values) 2)) as [v|] eqn:Hn.
  - exists v. split; [reflexivity|].
    unfold mediana. destruct values as [|x l]; [congruence|].
    rewrite sorted_length, Hn. reflexivity.
  - apply nth_error_None in Hn. lia.
Qed.

Lemma mediana_total (values : list float) : exists r, mediana values = Ok r.
Proof.
  destruct values as [|x l]; [eexists; reflexivity|].
  destruct (mediana_nonempty (x :: l)) as (v & _ & Hv); [discriminate|].
  exists (PyFloat v). exact Hv.
Qed.



(** C10: [mediana] of the empty list is the integer [0] and raises
    nothing, so a row built for a URL without recorded times carries
    [time_med = 0]. *)
Theorem mediana_empty :
  mediana [] = Ok (PyInt 0)
  /\ forall st url counters row,
       dict_get url (url_req_times st) = Some [] ->
       table_row st url counters = Ok row ->
       TableRow.time_med row = PyInt 0.
Proof.
  split; [reflexivity|].
  intros st url counters row Hget Hrow.
  unfold table_row in Hrow.
  destruct (py_truediv (PyInt (count counters)) _); cbn in Hrow; [|discriminate].
  destruct (py_truediv (time_sum counters) (PyInt _)); cbn in Hrow; [|discriminate].
  unfold dict_item in Hrow. rewrite Hget in Hrow. cbn in Hrow.
  destruct (py_truediv (time_sum counters) (PyFloat _)); cbn in Hrow; [|discriminate].
  inversion Hrow. reflexivity.
Qed.

Lemma mediana_empty_witness :
  match table_row no_times_state "/a" no_times_counters with
  | Ok row => TableRow.time_med row = PyInt 0
  | Raise _ => False
  end.
Proof.
  destruct (table_row no_times_state "/a" no_times_counters) as [row|e] eqn:E.
  - apply (proj2 mediana_empty no_times_state "/a" no_times_counters row);
      [reflexivity | exact E].
  - vm_compute in E. discriminate.
Defined.

(** ** Dictionaries *)

Section DictFacts.
Context {V : Type}.
Implicit Types (d : dict V) (k : string) (v : V).

Lemma dict_get_set_same k v d : dict_get k (dict_set k v d) = Some v.
Proof.
  induction d as [|[k' v'] d IH]; cbn.
  - rewrite String.eqb_refl. reflexivity.
  - destruct (String.eqb k k') eqn:E; cbn; rewrite E; [reflexivity|exact IH].
Qed.

Lemma dict_get_set_other k k' v d :
  k <> k' -> dict_get k' (dict_set k v d) = dict_get k' d.
Proof.
  intros Hne. induction d as [|[k0 v0] d IH]; cbn.
  - destruct (String.eqb_spec k' k); [congruence|reflexivity].
  - destruct (String.eqb_spec k k0); cbn.
    + subst k0. destruct (String.eqb_spec k' k); [congruence|reflexivity].
    + destruct (String.eqb k' k0); [reflexivity|exact IH].
Qed.

Lemma dict_get_in_keys k d :
  existsb (String.eqb k) (dict_keys d)
  = match dict_get k d with Some _ => true | None => false end.
Proof.
  unfold dict_keys.
  induction d as [|[k' v'] d IH]; cbn; [reflexivity|].
  destruct (String.eqb k k'); cbn; [reflexivity|exact IH].
Qed.

Lemma dict_keys_set k v d :
  dict_keys (dict_set k v d)
  = if existsb (String.eqb k) (dict_keys d) then dict_keys d
    else dict_keys d ++ [k].
Proof.
  unfold dict_keys.
  induction d as [|[k' v'] d IH]; cbn; [reflexivity|].
  destruct (String.eqb k k'); cbn; [reflexivity|].
  rewrite IH. destruct (existsb (String.eqb k) (map fst d)); reflexivity.
Qed.

Lemma dict_set_set k v v' d :
  dict_set k v' (dict_set k v d) = dict_set k v' d.
Proof.
  induction d as [|[k0 v0] d IH]; cbn.
  - rewrite String.eqb_refl. reflexivity.
  - destruct (String.eqb k k0) eqn:E; cbn; rewrite E; [reflexivity|].
    rewrite IH. reflexivity.
Qed.

Lemma dict_get_none_keys {W : Type} k d (d' : dict W) :
  dict_keys d = dict_keys d' -> dict_get k d = None -> dict_get k d' = None.
Proof.
  intros Hk Hg.
  pose proof (dict_get_in_keys k d) as H1. rewrite Hg in H1.
  assert (H2 : existsb (String.eqb k) (dict_keys d') = false).
  { rewrite <- Hk. exact H1. }
  clear - H2. induction d' as [|[k' v'] d' IH]; cbn in *; [reflexivity|].
  destruct (String.eqb k k'); cbn in *; [discriminate|]. apply IH. exact H2.
Qed.

Lemma existsb_eqb_In k (l : list string) :
  existsb (String.eqb k) l = true <-> In k l.
Proof.
  rewrite existsb_exists. split.
  - intros (x & Hin & Heq). apply String.eqb_eq in Heq. subst. exact Hin.
  - intros Hin. exists k. split; [exact Hin|apply String.eqb_refl].
Qed.

Lemma dict_get_of_In k v d :
  NoDup (dict_keys d) -> In (k, v) d -> dict_get k d = Some v.
Proof.
  induction d as [|[k' v'] d IH]; cbn; intros Hnd Hin; [contradiction|].
  inversion Hnd as [|? ? Hnotin Hnd']; subst.
  destruct Hin as [Heq|Hin].
  - inversion Heq; subst. rewrite String.eqb_refl. reflexivity.
  - destruct (String.eqb_spec k k') as [->|Hne].
    + exfalso. apply Hnotin. change k' with (fst (k', v)).
      apply in_map. exact Hin.
    + apply IH; assumption.
Qed.

Lemma dict_keys_set_NoDup k v d :
  NoDup (dict_keys d) -> NoDup (dict_keys (dict_set k v d)).
Proof.
  intros Hnd. rewrite dict_keys_set.
  destruct (existsb (String.eqb k) (dict_keys d)) eqn:E; [exact Hnd|].
  apply NoDup_app; [exact Hnd | repeat constructor; cbn; tauto |].
  intros a Ha [Hk|[]]. subst a. apply existsb_eqb_In in Ha. congruence.
Qed.
End DictFacts.

(** ** The aggregation loop *)

Section Aggregation.

Variable float_of_str : string -> option float.

Local Abbreviation aggregate := (aggregate float_of_str).
Local Abbreviation aggregate_all := (aggregate_all float_of_str).
Local Abbreviation accepted := (accepted float_of_str).
Local Abbreviation accepted_records := (accepted_records float_of_str).
Local Abbreviation accepted_times := (accepted_times float_of_str).
Local Abbreviation accepted_urls := (accepted_urls float_of_str).

Lemma aggregate_accepted st log_line url t :
  counters_inv st ->
  accepted (Ok log_line) = Some (url, t) ->
  aggregate st log_line = Ok (record_time st url t).
Proof.
  intros (_ & Hkeys & _ & Hurl) Hacc.
  unfold accepted in Hacc. unfold aggregate.
  destruct (Str.len (request log_line) =? 3); [discriminate|].
  destruct (firstn 2 (Str.split " " (request log_line)))
    as [|a [|u [|b r]]]; try discriminate.
  destruct (py_float float_of_str (request_time log_line)) as [t'|] eqn:Hf;
    [|discriminate].
  inversion Hacc; subst u t'. clear Hacc.
  unfold record_time.
  destruct (dict_get url (url_counters st)) as [c|] eqn:Hget.
  - destruct (Hurl url c Hget) as (times & Hgt & _).
    unfold dict_item. rewrite Hget, Hgt. reflexivity.
  - pose proof (dict_get_none_keys url _ _ Hkeys Hget) as Hgt.
    unfold dict_item. rewrite !dict_get_set_same. cbn [bind].
    rewrite Hgt, !dict_set_set. reflexivity.
Qed.

Lemma aggregate_skipped st st' log_line :
  accepted (Ok log_line) = None ->
  aggregate st log_line = Ok st' ->
  st' = st.
Proof.
  unfold accepted, aggregate. intros Hacc Hagg.
  destruct (Str.len (request log_line) =? 3); [congruence|].
  destruct (firstn 2 (Str.split " " (request log_line)))
    as [|a [|u [|b r]]]; try discriminate.
  destruct (py_float float_of_str (request_time log_line)) as [t'|] eqn:Hf;
    [discriminate|].
  destruct (dict_get u (url_counters st)); cbn in Hagg;
    destruct (dict_item u _); cbn in Hagg; discriminate.
Qed.

Lemma py_sum_snoc times t :
  py_sum (times ++ [t]) = py_add (py_sum times) (PyFloat t).
Proof. unfold py_sum. rewrite fold_left_app. reflexivity. Qed.

Lemma sum_counts_set url c d :
  sum_counts (dict_set url c d)
  = sum_counts d + count c
    - match dict_get url d with Some c0 => count c0 | None => 0 end.
Proof.
  unfold sum_counts. induction d as [|[k v] d IH]; cbn.
  - lia.
  - destruct (String.eqb url k); cbn; [lia|]. rewrite IH. lia.
Qed.

Lemma record_time_inv st url t :
  counters_inv st -> counters_inv (record_time st url t).
Proof.
  intros (Hnd & Hkeys & Htotal & Hurl).
  unfold counters_inv, record_time;
    cbn [url_counters url_req_times total_counters total_count total_time_sum].
  split; [apply dict_keys_set_NoDup; exact Hnd|].
  split; [rewrite !dict_keys_set, Hkeys; reflexivity|].
  split.
  - rewrite sum_counts_set. cbn.
    destruct (dict_get url (url_counters st)); cbn; lia.
  - intros url' c' Hget.
    destruct (String.eqb_spec url url') as [<-|Hne].
    + rewrite dict_get_set_same in Hget. inversion Hget; subst c'; clear Hget.
      rewrite dict_get_set_same. eexists. split; [reflexivity|].
      destruct (dict_get url (url_counters st)) as [c|] eqn:Hc.
      * destruct (Hurl url c Hc) as (times & Hgt & Hne & Hcount & Hsum).
        rewrite Hgt. cbn.
        split; [destruct times; discriminate|].
        split; [rewrite length_app; cbn; lia|].
        rewrite py_sum_snoc, Hsum. reflexivity.
      * rewrite (dict_get_none_keys url _ _ Hkeys Hc). cbn.
        split; [discriminate|]. split; reflexivity.
    + rewrite dict_get_set_other in Hget by exact Hne.
      rewrite dict_get_set_other by exact Hne.
      apply Hurl. exact Hget.
Qed.

Lemma py_max_snoc x rest t :
  py_max ((x :: rest) ++ [t])
  = match py_max (x :: rest) with
    | Some m => Some (if Float.ltb m t then t else m)
    | None => None
    end.
Proof. cbn. rewrite fold_left_app. reflexivity. Qed.

Lemma ltb_true_not_nan m t : Float.ltb m t = true -> Float.is_nan t = false.
Proof.
  unfold Float.ltb, SFltb. destruct m, t; cbn; congruence.
Qed.

Lemma record_time_max_inv st url t :
  counters_inv st -> nonneg t = true ->
  max_inv st -> max_inv (record_time st url t).
Proof.
  intros (Hnd & Hkeys & Htotal & Hurl) Hnn Hmax.
  unfold max_inv, record_time;
    cbn [url_counters url_req_times total_counters total_count total_time_sum].
  intros url' c' times' Hc' Ht'.
  destruct (String.eqb_spec url url') as [<-|Hne].
  - rewrite dict_get_set_same in Hc'. rewrite dict_get_set_same in Ht'.
    inversion Hc'; subst c'; clear Hc'. inversion Ht'; subst times'; clear Ht'.
    cbn.
    destruct (dict_get url (url_counters st)) as [c|] eqn:Hc.
    + destruct (Hurl url c Hc) as (times & Hgt & Hnil & _).
      rewrite Hgt.
      destruct (Hmax url c times Hc Hgt) as (m & Hm & Hcases).
      destruct times as [|x rest]; [congruence|].
      exists (if Float.ltb m t then t else m).
      split; [rewrite py_max_snoc, Hm; reflexivity|].
      destruct Hcases as [[Htm Hnan]|[Htm Hz]]; rewrite Htm; cbn.
      * destruct (Float.ltb m t) eqn:Hlt.
        -- left. split; [reflexivity|]. eapply ltb_true_not_nan. exact Hlt.
        -- left. split; [reflexivity|exact Hnan].
      * rewrite (ltb_zero_l m t Hz). unfold Float.zero.
        destruct (Float.ltb (S754_zero false) t) eqn:Hlt.
        -- left. split; [reflexivity|]. eapply ltb_true_not_nan. exact Hlt.
        -- right. split; [reflexivity|exact Hz].
    + rewrite (dict_get_none_keys url _ _ Hkeys Hc). cbn.
      exists t. split; [reflexivity|].
      destruct (Float.ltb (S754_zero false) t) eqn:Hlt.
      * left. split; [reflexivity|]. apply nonneg_not_nan. exact Hnn.
      * right. split; [reflexivity|].
        apply nonneg_not_pos_is_zero; [exact Hnn|exact Hlt].
  - rewrite dict_get_set_other in Hc' by exact Hne.
    rewrite dict_get_set_other in Ht' by exact Hne.
    eapply Hmax; eassumption.
Qed.

End Aggregation.

Section Runs.

Variable float_of_str : string -> option float.


Lemma initial_counters_inv : counters_inv initial_counters.
Proof.
  unfold counters_inv, initial_counters; cbn.
  split; [constructor|]. split; [reflexivity|]. split; [reflexivity|].
  intros url c H. discriminate.
Qed.

Lemma initial_max_inv : max_inv initial_counters.
Proof. intros url c times H. discriminate. Qed.

Lemma record_time_keys st url t :
  dict_keys (url_counters (record_time st url t))
  = seen_step (dict_keys (url_counters st)) url.
Proof. unfold record_time; cbn [url_counters]. apply dict_keys_set. Qed.

(** What a run of the loop that raises nothing leaves in the
    counters. *)
Lemma aggregate_all_inv log_parser :
  forall st st',
    counters_inv st ->
    aggregate_all float_of_str st log_parser = Ok st' ->
    counters_inv st'
    /\ total_time_sum (total_counters st')
       = fold_left Float.add (accepted_times float_of_str log_parser)
           (total_time_sum (total_counters st))
    /\ dict_keys (url_counters st')
       = fold_left seen_step (accepted_urls float_of_str log_parser)
           (dict_keys (url_counters st))
    /\ (Forall (fun t => nonneg t = true) (accepted_times float_of_str log_parser) ->
        max_inv st -> max_inv st').
Proof.
  induction log_parser as [|item rest IH]; intros st st' Hinv Hrun.
  - cbn in Hrun. inversion Hrun; subst st'. cbn. auto.
  - cbn [aggregate_all] in Hrun.
    destruct item as [log_line|e]; cbn [bind] in Hrun; [|discriminate].
    destruct (aggregate float_of_str st log_line) as [st1|e] eqn:Hstep;
      cbn [bind] in Hrun; [|discriminate].
    unfold accepted_times, accepted_urls.
    cbn [accepted_records].
    destruct (accepted float_of_str (Ok log_line)) as [[url t]|] eqn:Hacc.
    + rewrite (aggregate_accepted float_of_str st log_line url t Hinv Hacc) in Hstep.
      inversion Hstep; subst st1; clear Hstep.
      destruct (IH _ _ (record_time_inv st url t Hinv) Hrun)
        as (Hinv' & Hsum & Hkeys & Hmax).
      split; [exact Hinv'|]. cbn [map fold_left snd fst].
      split; [exact Hsum|].
      split; [rewrite Hkeys, record_time_keys; reflexivity|].
      intros Hall Hm. inversion Hall as [|? ? Hnn Hall']; subst.
      apply Hmax; [exact Hall'|].
      apply record_time_max_inv; assumption.
    + rewrite (aggregate_skipped float_of_str st st1 log_line Hacc Hstep) in Hrun.
      apply IH; assumption.
Qed.

Lemma max_agrees_eq tm times :
  max_agrees tm times ->
  exists m, py_max times = Some m /\ py_eq tm (PyFloat m) = true.
Proof.
  intros (m & Hm & [[Htm Hnan]|[Htm Hz]]); exists m; split; try exact Hm;
    subst tm; cbn.
  - apply eqb_refl. exact Hnan.
  - destruct m; cbn in Hz; try discriminate. reflexivity.
Qed.

(** C4 (amended): after a run of the loop that raises nothing, in
    which every request time that is counted is non-negative, every
    URL has [time_max == max(times)], [time_sum == sum(times)] and
    [count == len(times)]; the global [count] is the sum of the counts
    of the URLs; and the global [time_sum] is the sum, from the left
    and starting at [0.0], of the request times of the counted records
    in the order of the input. *)
Theorem aggregate_invariants log_parser st :
  aggregate_all float_of_str initial_counters log_parser = Ok st ->
  Forall (fun t => nonneg t = true) (accepted_times float_of_str log_parser) ->
  (forall url c,
      dict_get url (url_counters st) = Some c ->
      exists times m,
        dict_get url (url_req_times st) = Some times
        /\ py_max times = Some m
        /\ py_eq (time_max c) (PyFloat m) = true
        /\ time_sum c = py_sum times
        /\ count c = Z.of_nat (List.length times))
  /\ total_count (total_counters st) = sum_counts (url_counters st)
  /\ total_time_sum (total_counters st)
     = fold_left Float.add (accepted_times float_of_str log_parser) Float.zero.
Proof.
  intros Hrun Hall.
  destruct (aggregate_all_inv log_parser _ _ initial_counters_inv Hrun)
    as ((Hnd & Hkeys & Htotal & Hurl) & Hsum & _ & Hmax).
  split; [|split; [exact Htotal|exact Hsum]].
  intros url c Hget.
  destruct (Hurl url c Hget) as (times & Hgt & Hne & Hcount & Hts).
  destruct (max_agrees_eq _ _ (Hmax Hall initial_max_inv url c times Hget Hgt))
    as (m & Hm & Heq).
  exists times, m. auto.
Qed.

End Runs.

Lemma aggregate_invariants_witness :
  exists st,
    aggregate_all float_of_decimal initial_counters test_log_parser = Ok st
    /\ total_count (total_counters st) = sum_counts (url_counters st)
    /\ total_time_sum (total_counters st)
       = fold_left Float.add (accepted_times float_of_decimal test_log_parser)
           Float.zero.
Proof.
  destruct (aggregate_all float_of_decimal initial_counters test_log_parser)
    as [st|e] eqn:E; [|vm_compute in E; discriminate].
  exists st. split; [reflexivity|].
  apply (aggregate_invariants float_of_decimal test_log_parser st E).
  vm_compute. repeat constructor.
Defined.

(** The global [time_sum] is not the sum of the [time_sum] of the URLs:
    for the times 0.1 and 0.4 on one URL and 0.2 on another, the loop
    leaves (0.1 + 0.2) + 0.4 = 0.7000000000000001 in the global counter
    and 0.5 and 0.2 in the counters of the URLs, whose sum is 0.7. *)
Lemma global_time_sum_regrouped :
  exists st,
    aggregate_all float_of_decimal initial_counters regrouped_log_parser = Ok st
    /\ Forall (fun t => nonneg t = true)
         (accepted_times float_of_decimal regrouped_log_parser)
    /\ sum_time_sums (url_counters st) = PyFloat (Float.dec 7 1)
    /\ py_eq (PyFloat (total_time_sum (total_counters st)))
             (sum_time_sums (url_counters st)) = false.
Proof.
  eexists. split; [vm_compute; reflexivity|].
  split; [vm_compute; repeat constructor|].
  split; vm_compute; reflexivity.
Qed.

(** ** Skipped and rejected requests *)

Lemma aggregate_all_app float_of_str pre :
  forall st post,
    aggregate_all float_of_str st (pre ++ post)
    = (st' <- aggregate_all float_of_str st pre ;;
       aggregate_all float_of_str st' post).
Proof.
  induction pre as [|item pre IH]; intros st post; cbn; [reflexivity|].
  destruct item as [log_line|e]; cbn; [|reflexivity].
  destruct (aggregate float_of_str st log_line) as [st1|e]; cbn; [|reflexivity].
  apply IH.
Qed.

(** C1 (amended): a record whose [request] has exactly three characters,
    such as the quoted dash that the parser yields for an empty request,
    is skipped: the counters are left as they were, nothing is raised,
    and the report is the one of the input without that record. *)
Theorem three_character_request_skipped float_of_str st log_line :
  String.length (request log_line) = 3%nat ->
  aggregate float_of_str st log_line = Ok st
  /\ forall pre post report_size,
       write_report float_of_str (pre ++ Ok log_line :: post) report_size
       = write_report float_of_str (pre ++ post) report_size.
Proof.
  intros Hlen.
  assert (Hskip : forall s, aggregate float_of_str s log_line = Ok s).
  { intros s. unfold aggregate, Str.len. rewrite Hlen. reflexivity. }
  split; [apply Hskip|].
  intros pre post report_size. unfold write_report.
  rewrite !aggregate_all_app.
  destruct (aggregate_all float_of_str initial_counters pre) as [s|e]; cbn;
    [|reflexivity].
  rewrite Hskip. reflexivity.
Qed.

Lemma three_character_request_skipped_witness :
  aggregate float_of_decimal initial_counters
    (parsed_entry (quoted "'-'") "0.390") = Ok initial_counters.
Proof.
  apply (three_character_request_skipped float_of_decimal initial_counters
           (parsed_entry (quoted "'-'") "0.390")).
  reflexivity.
Defined.

(** A request of one piece that is not three characters long is not
    skipped: unpacking the pair raises [ValueError]. *)
Lemma one_token_request_raises :
  request_tokens "-" = 1%nat
  /\ aggregate float_of_decimal initial_counters (parsed_entry "-" "0.390")
     = Raise ValueError
  /\ request_tokens (quoted "'GET'") = 1%nat
  /\ aggregate float_of_decimal initial_counters
       (parsed_entry (quoted "'GET'") "0.390") = Raise ValueError
  /\ write_report float_of_decimal
       [Ok (parsed_entry (quoted "'GET'") "0.390")] (VStr "1000")
     = Raise ValueError.
Proof. repeat split; vm_compute; reflexivity. Qed.

(** ** The table *)

(** C6: the four records of the test give exactly the three rows that
    the test expects. *)
Theorem test_write_report_rows (float_of_str : string -> option float) :
  write_report float_of_str test_log_parser (VNum (PyInt 100))
  = Ok expected_table_data.
Proof. vm_compute. reflexivity. Qed.

Lemma counters_inv_entry st url c :
  counters_inv st ->
  In (url, c) (url_counters st) ->
  1 <= count c /\ exists times, dict_get url (url_req_times st) = Some times.
Proof.
  intros (Hnd & _ & _ & Hurl) Hin.
  destruct (Hurl url c (dict_get_of_In url c _ Hnd Hin))
    as (times & Hgt & Hne & Hcount & _).
  split; [|exists times; exact Hgt].
  destruct times; [congruence|]. cbn [List.length] in Hcount. lia.
Qed.

Lemma sum_counts_length (d : dict UrlCounters) :
  (forall url c, In (url, c) d -> 1 <= count c) ->
  Z.of_nat (List.length d) <= sum_counts d.
Proof.
  unfold sum_counts. induction d as [|[k v] d IH]; intros H.
  - cbn. lia.
  - cbn [fold_right List.length snd].
    assert (1 <= count v) by (apply (H k); left; reflexivity).
    assert (Z.of_nat (List.length d) <= fold_right (fun kv acc => count (snd kv) + acc) 0 d).
    { apply IH. intros url c Hin. apply (H url). right. exact Hin. }
    lia.
Qed.

Lemma py_truediv_ok (a b : pynum) :
  py_is_zero b = false -> py_truediv a b = Ok (PyFloat (Float.div (to_float a) (to_float b))).
Proof. intros H. unfold py_truediv. rewrite H. reflexivity. Qed.

(** No division of the table has a zero divisor when the totals are not
    zero and every URL has been counted at least once. *)
Lemma table_rows_ok st items :
  total_count (total_counters st) <> 0 ->
  Float.is_zero (total_time_sum (total_counters st)) = false ->
  (forall url c, In (url, c) items ->
     1 <= count c /\ exists times, dict_get url (url_req_times st) = Some times) ->
  exists rows, table_rows st items = Ok rows.
Proof.
  intros Hcount Hsum. induction items as [|[url c] items IH]; intros Hall.
  - exists []. reflexivity.
  - destruct (Hall url c (or_introl eq_refl)) as (Hc & times & Hgt).
    destruct IH as (rows & Hrows).
    { intros u c' Hin. apply Hall. right. exact Hin. }
    destruct (mediana_total times) as (med & Hmed).
    cbn [table_rows]. unfold table_row.
    rewrite py_truediv_ok by (cbn; apply Z.eqb_neq; exact Hcount).
    cbn [bind].
    rewrite py_truediv_ok by (cbn; apply Z.eqb_neq; lia).
    cbn [bind]. unfold dict_item. rewrite Hgt. cbn [bind]. rewrite Hmed.
    cbn [bind]. rewrite py_truediv_ok by exact Hsum.
    cbn [bind]. rewrite Hrows. cbn [bind]. eexists. reflexivity.
Qed.

Lemma table_rows_urls st items :
  forall rows, table_rows st items = Ok rows -> map TableRow.url rows = dict_keys items.
Proof.
  induction items as [|[url c] items IH]; intros rows H.
  - inversion H. reflexivity.
  - cbn [table_rows] in H.
    destruct (table_row st url c) as [row|e] eqn:Hrow; cbn [bind] in H;
      [|discriminate].
    destruct (table_rows st items) as [rows'|e]; cbn [bind] in H; [|discriminate].
    inversion H; subst rows. cbn. rewrite (IH rows' eq_refl). f_equal.
    unfold table_row in Hrow.
    repeat match type of Hrow with
           | bind ?r _ = _ => destruct r; cbn [bind] in Hrow; [|discriminate]
           end.
    inversion Hrow. reflexivity.
Qed.

(** C5 (amended): when the global count is 0 after the loop, no URL has
    been counted, the table is empty and no division is performed; and
    no division of the table has a zero divisor for an input whose
    global sum of request times is not zero. *)
Theorem table_divisions float_of_str log_parser report_size st :
  aggregate_all float_of_str initial_counters log_parser = Ok st ->
  (total_count (total_counters st) = 0 ->
     url_counters st = []
     /\ write_report float_of_str log_parser report_size = Ok [])
  /\ (Float.is_zero (total_time_sum (total_counters st)) = false ->
      exists rows, write_report float_of_str log_parser report_size = Ok rows).
Proof.
  intros Hrun.
  destruct (aggregate_all_inv float_of_str log_parser _ _ initial_counters_inv Hrun)
    as (Hinv & _).
  assert (Hlen : Z.of_nat (List.length (url_counters st))
                 <= total_count (total_counters st)).
  { destruct Hinv as (Hnd & Hk & Htotal & Hurl) eqn:E. rewrite Htotal.
    apply sum_counts_length. intros url c Hin.
    apply (counters_inv_entry st url c Hinv Hin). }
  unfold write_report. rewrite Hrun. cbn [bind]. unfold table_data. split.
  - intros Hzero.
    assert (Hnil : url_counters st = []).
    { destruct (url_counters st); [reflexivity|]. cbn [List.length] in Hlen. lia. }
    split; [exact Hnil|]. rewrite Hnil. reflexivity.
  - intros Hsum. destruct (url_counters st) as [|kv d] eqn:Hd.
    + exists []. reflexivity.
    + rewrite <- Hd. apply table_rows_ok.
      * cbn [List.length] in Hlen. lia.
      * exact Hsum.
      * intros url c Hin. apply (counters_inv_entry st url c Hinv Hin).
Qed.

Lemma table_divisions_witness :
  write_report float_of_decimal [Ok (parsed_entry (quoted "'-'") "0.390")]
    (VStr "1000") = Ok []
  /\ exists rows,
       write_report float_of_decimal (log_parser [full_line; full_line])
         (VStr "1000") = Ok rows.
Proof.
  split.
  - destruct (aggregate_all float_of_decimal initial_counters
                [Ok (parsed_entry (quoted "'-'") "0.390")]) as [st|e] eqn:E;
      [|vm_compute in E; discriminate].
    apply (table_divisions float_of_decimal _ (VStr "1000") st E).
    vm_compute in E. inversion E. reflexivity.
  - destruct (aggregate_all float_of_decimal initial_counters
                (log_parser [full_line; full_line])) as [st|e] eqn:E;
      [|vm_compute in E; discriminate].
    apply (table_divisions float_of_decimal _ (VStr "1000") st E).
    vm_compute in E. inversion E. reflexivity.
Defined.

(** A record was counted and the request times sum to zero: the division
    for [time_perc] raises [ZeroDivisionError]. *)
Lemma zero_time_sum_raises :
  (exists st,
      aggregate_all float_of_decimal initial_counters zero_time_log_parser = Ok st
      /\ total_count (total_counters st) = 1)
  /\ write_report float_of_decimal zero_time_log_parser (VStr "1000")
     = Raise ZeroDivisionError.
Proof.
  split; [eexists; split|]; vm_compute; reflexivity.
Qed.

(** C9 (amended): [write_report] does not look at [report_size]: the
    table has one row for each URL, in the order in which the URLs first
    occur in the input, neither sorted nor truncated. *)
Theorem report_rows_first_seen float_of_str log_parser report_size rows :
  write_report float_of_str log_parser report_size = Ok rows ->
  map TableRow.url rows = first_seen (accepted_urls float_of_str log_parser)
  /\ forall report_size',
       write_report float_of_str log_parser report_size' = Ok rows.
Proof.
  unfold write_report. intros H. split; [|intros; exact H].
  destruct (aggregate_all float_of_str initial_counters log_parser) as [st|e] eqn:Hrun;
    cbn [bind] in H; [|discriminate].
  destruct (aggregate_all_inv float_of_str log_parser _ _ initial_counters_inv Hrun)
    as (_ & _ & Hkeys & _).
  unfold table_data in H. rewrite (table_rows_urls st _ rows H), Hkeys.
  reflexivity.
Qed.

Lemma report_rows_first_seen_witness :
  map TableRow.url expected_table_data
  = first_seen (accepted_urls float_of_decimal test_log_parser).
Proof.
  apply (report_rows_first_seen float_of_decimal test_log_parser
           (VNum (PyInt 100)) expected_table_data).
  vm_compute. reflexivity.
Defined.

(** With a report size of 1 the table of the test still has its three
    rows, and the row with the largest [time_sum] is the last one. *)
Lemma report_size_ignored :
  write_report float_of_decimal test_log_parser (VNum (PyInt 1))
  = Ok expected_table_data
  /\ List.length expected_table_data = 3%nat
  /\ map TableRow.time_sum expected_table_data
     = [PyFloat (Float.dec 3 1); PyFloat (Float.dec 3 1); PyFloat (Float.dec 4 1)]
  /\ py_lt (PyFloat (Float.dec 3 1)) (PyFloat (Float.dec 4 1)) = true.
Proof. repeat split; vm_compute; reflexivity. Qed.

(** ** Short lines *)

Lemma decode_short (log_values : list string) :
  (List.length log_values < 13)%nat -> decode log_values = Raise IndexError.
Proof.
  intros H. unfold decode.
  do 13 (destruct log_values as [|? log_values]; [reflexivity|]).
  cbn in H. lia.
Qed.

Lemma log_parser_app pre :
  forall rest,
    Forall (fun l => l <> "") pre ->
    log_parser (pre ++ rest) = log_parser pre ++ log_parser rest.
Proof.
  induction pre as [|l pre IH]; intros rest H; [reflexivity|].
  inversion H as [|? ? Hl Hpre]; subst. cbn.
  destruct (String.eqb_spec l ""); [congruence|].
  cbn. rewrite IH by exact Hpre. reflexivity.
Qed.

(** C2 (amended): a line with fewer than 13 tokens makes the decoding
    raise [IndexError]; nothing catches it, so [write_report] ends with
    an exception on every log that contains such a line, and with that
    [IndexError] when the lines before it were processed. *)
Theorem short_line_aborts float_of_str line :
  line <> "" ->
  (List.length (tokenize line) < 13)%nat ->
  decode (tokenize line) = Raise IndexError
  /\ forall pre post report_size,
       Forall (fun l => l <> "") pre ->
       (exists e,
           write_report float_of_str (log_parser (pre ++ line :: post)) report_size
           = Raise e)
       /\ (forall st,
              aggregate_all float_of_str initial_counters (log_parser pre) = Ok st ->
              write_report float_of_str (log_parser (pre ++ line :: post)) report_size
              = Raise IndexError).
Proof.
  intros Hne Hlen.
  pose proof (decode_short _ Hlen) as Hdec.
  split; [exact Hdec|].
  intros pre post report_size Hpre.
  assert (Hrun : aggregate_all float_of_str initial_counters
                   (log_parser (pre ++ line :: post))
                 = (st <- aggregate_all float_of_str initial_counters (log_parser pre) ;;
                    Raise IndexError)).
  { rewrite log_parser_app by exact Hpre. rewrite aggregate_all_app.
    destruct (aggregate_all float_of_str initial_counters (log_parser pre));
      cbn [bind]; [|reflexivity].
    cbn [log_parser]. destruct (String.eqb_spec line ""); [congruence|].
    cbn [aggregate_all]. rewrite Hdec. reflexivity. }
  unfold write_report. rewrite Hrun. split.
  - destruct (aggregate_all float_of_str initial_counters (log_parser pre)) as [st|e];
      cbn [bind]; eexists; reflexivity.
  - intros st Hst. rewrite Hst. reflexivity.
Qed.

Lemma short_line_aborts_witness :
  write_report float_of_decimal (log_parser ([full_line] ++ short_line :: [full_line]))
    (VStr "1000") = Raise IndexError.
Proof.
  destruct (aggregate_all float_of_decimal initial_counters (log_parser [full_line]))
    as [st|e] eqn:E; [|vm_compute in E; discriminate].
  apply (short_line_aborts float_of_decimal short_line) with (st := st).
  - discriminate.
  - vm_compute. lia.
  - repeat constructor; discriminate.
  - exact E.
Defined.

(** A log whose second line is cut after seven tokens: the run ends with
    an uncaught [IndexError] and writes no report, whereas the same log
    without that line is reported. *)
Lemma short_line_ends_run :
  List.length (tokenize short_line) = 7%nat
  /\ main float_of_decimal (one_log_world [full_line; short_line; full_line]) "./config"
     = Uncaught IndexError
  /\ exists table,
       main float_of_decimal (one_log_world [full_line; full_line]) "./config"
       = Reported {| year := 2017; month := 6; day := 30 |} table
           "nginx-access-ui.log-20170630".
Proof.
  split; [vm_compute; reflexivity|]. split; [vm_compute; reflexivity|].
  eexists. vm_compute. reflexivity.
Qed.

(** ** The config file *)

Lemma split_no_sep (c : ascii) (s : string) :
  forall i, 0 <= i -> Str.find_from c s i = -1 -> Str.split c s = [s].
Proof.
  induction s as [|d s IH]; intros i Hi H; [reflexivity|].
  cbn in *. destruct (Ascii.eqb d c); [lia|].
  rewrite (IH (i + 1)) by (lia || exact H). reflexivity.
Qed.

Lemma split_at_sep (c : ascii) (key value : string) :
  forall i, 0 <= i -> Str.find_from c key i = -1 ->
    Str.split c (key ++ String c value) = key :: Str.split c value.
Proof.
  induction key as [|d key IH]; intros i Hi H.
  - cbn. rewrite Ascii.eqb_refl. reflexivity.
  - cbn in *. destruct (Ascii.eqb d c); [lia|].
    rewrite (IH (i + 1)) by (lia || exact H). reflexivity.
Qed.

Lemma read_user_config_no_sep lines line :
  In line lines -> Str.find "=" line = -1 ->
  forall user_config, read_user_config lines user_config = None.
Proof.
  intros Hin Hfind. induction lines as [|l lines IH]; [contradiction|].
  intros user_config. cbn [read_user_config].
  destruct Hin as [->|Hin].
  - rewrite (split_no_sep "=" line 0) by (lia || exact Hfind). reflexivity.
  - destruct (Str.split "=" l) as [|p0 [|p1 ps]]; try reflexivity.
    apply IH. exact Hin.
Qed.

(** C7 (amended): in a config line with one [=], the text before it is
    the key and the text after it is the value, both stripped; and a
    line without [=] makes [main] exit with status 1. *)
Theorem config_line_separator :
  (forall key value rest user_config,
      Str.find "=" key = -1 -> Str.find "=" value = -1 ->
      read_user_config ((key ++ "=" ++ value)%string :: rest) user_config
      = read_user_config rest
          (dict_set (Str.strip key) (Str.strip value) user_config))
  /\ (forall float_of_str w config_path lines line,
         config_lines w config_path = Some lines ->
         In line lines -> Str.find "=" line = -1 ->
         main float_of_str w config_path = SysExit 1).
Proof.
  split.
  - intros key value rest user_config Hk Hv. cbn [read_user_config].
    change (key ++ "=" ++ value)%string with (key ++ String "=" value)%string.
    rewrite (split_at_sep "=" key value 0) by (lia || exact Hk).
    rewrite (split_no_sep "=" value 0) by (lia || exact Hv). reflexivity.
  - intros float_of_str w config_path lines line Hcfg Hin Hfind.
    unfold main, parse_config. rewrite Hcfg.
    rewrite (read_user_config_no_sep lines line Hin Hfind). reflexivity.
Qed.

Lemma config_line_separator_witness :
  read_user_config [("LOG_DIR" ++ "=" ++ "user_dir_1")%string] []
  = Some [("LOG_DIR", "user_dir_1")]
  /\ main float_of_decimal
       {| config_lines := fun _ => Some ["LOG_DIR=user_dir_1"; "invalid_line"];
          registry_lines := fun _ => None;
          iterdir := fun _ => [];
          log_lines := fun _ => [] |} "user_config_file_path"
     = SysExit 1.
Proof.
  destruct config_line_separator as [Hsep Hexit]. split.
  - rewrite (Hsep "LOG_DIR" "user_dir_1" [] []); reflexivity.
  - apply (Hexit float_of_decimal _ "user_config_file_path"
             ["LOG_DIR=user_dir_1"; "invalid_line"] "invalid_line").
    + reflexivity.
    + right. left. reflexivity.
    + reflexivity.
Defined.

(** A value that contains [=] is not kept in full: the line
    [REPORT_DIR=/data/a=b] sets [REPORT_DIR] to [/data/a]. *)
Lemma config_value_cut :
  exists user_config,
    parse_config (Some [("REPORT_DIR=/data/a=b" ++ nl)%string]) config
    = Some user_config
    /\ dict_get "REPORT_DIR" user_config = Some "/data/a".
Proof. eexists. split; vm_compute; reflexivity. Qed.

(** ** File selection *)

Lemma datetime_gtb_spec (a b : datetime) :
  datetime_gtb a b = true
  <-> (year b < year a
       \/ (year b = year a
           /\ (month b < month a \/ (month b = month a /\ day b < day a)))).
Proof.
  unfold datetime_gtb.
  rewrite !orb_true_iff, !andb_true_iff, !orb_true_iff, !andb_true_iff,
    !Z.ltb_lt, !Z.eqb_eq.
  reflexivity.
Qed.

Lemma datetime_gtb_false (a b : datetime) :
  datetime_gtb a b = false
  <-> ~ (year b < year a
         \/ (year b = year a
             /\ (month b < month a \/ (month b = month a /\ day b < day a)))).
Proof.
  rewrite <- datetime_gtb_spec. destruct (datetime_gtb a b); split; intros H;
    congruence || (exfalso; apply H; reflexivity) || discriminate.
Qed.

(** [a <= b] and [b <= c] give [a <= c]. *)
Lemma datetime_le_trans (a b c : datetime) :
  datetime_gtb a b = false -> datetime_gtb b c = false -> datetime_gtb a c = false.
Proof. rewrite !datetime_gtb_false. lia. Qed.

Lemma datetime_gtb_le (a b : datetime) :
  datetime_gtb a b = true -> datetime_gtb b a = false.
Proof. rewrite datetime_gtb_spec, datetime_gtb_false. lia. Qed.

Lemma datetime_le_refl (a : datetime) : datetime_gtb a a = false.
Proof. rewrite datetime_gtb_false. lia. Qed.


Lemma candidates_In registry entries f :
  In f (candidates registry entries)
  <-> In f (map fst (filter (fun f => negb (snd f) && log_file_pttn (fst f)) entries))
      /\ is_processed f (match registry with
                         | Some lines => map Str.strip lines
                         | None => []
                         end) = false.
Proof.
  unfold candidates. rewrite filter_In, negb_true_iff. reflexivity.
Qed.





(** ** The tests of the repository, on the embedding *)

Example tokenize_full_line :
  tokenize full_line
  = ["1.196.116.32"; "-"; "-"; "[29/Jun/2017:03:50:22 +0300]";
     quoted "'GET /api/v2/banner/25019354 HTTP/1.1'"; "200"; "927";
     quoted "'-'";
     quoted "'Lynx/2.8.8dev.9 libwww-FM/2.14 SSL-MM/1.4.1 GNUTLS/2.10.5'";
     quoted "'-'"; quoted "'1498697422-2190034393-4708-9752759'";
     quoted "'dc7161be3'"; "0.390"].
Proof. vm_compute. reflexivity. Qed.

Example test_parse_config_success :
  parse_config (Some [("LOG_DIR=user_dir_1" ++ nl)%string;
                      ("REPORT_SIZE=100" ++ nl)%string])
    [("LOG_DIR", "some_dir_1"); ("REPORT_DIR", "some_dir_2")]
  = Some [("LOG_DIR", "user_dir_1"); ("REPORT_SIZE", "100");
          ("REPORT_DIR", "some_dir_2")].
Proof. vm_compute. reflexivity. Qed.

Example test_parse_config_invalid_format :
  parse_config (Some [("LOG_DIR=user_dir_1" ++ nl)%string;
                      ("invalid_line" ++ nl)%string;
                      ("REPORT_SIZE=100" ++ nl)%string])
    [("LOG_DIR", "some_dir_1"); ("REPORT_DIR", "some_dir_2")]
  = None.
Proof. vm_compute. reflexivity. Qed.

Example test_parse_config_file_not_found :
  parse_config None [("LOG_DIR", "some_dir_1"); ("REPORT_DIR", "some_dir_2")]
  = None.
Proof. reflexivity. Qed.

Example test_get_last_log_file_found :
  get_last_log_file "mock_log_dir"
    (Some [("nginx-access-ui.log-20230301" ++ nl)%string]) test_entries
  = Ok (Some {| file := "mock_log_dir/nginx-access-ui.log-20230303.gz";
                date := {| year := 2023; month := 3; day := 3 |} |}).
Proof. vm_compute. reflexivity. Qed.

Example test_get_last_log_file_no_log_files :
  get_last_log_file "mock_log_dir" (Some []) [] = Ok None.
Proof. reflexivity. Qed.

Example float_of_decimal_request_time :
  float_of_decimal "0.390" = Some (Float.dec 390 3).
Proof. vm_compute. reflexivity. Qed.

(** * Further properties *)

(** ** The tokenizer *)

Lemma find_from_lower (c : ascii) (s : string) :
  forall i, Str.find_from c s i = -1 \/ i <= Str.find_from c s i.
Proof.
  induction s as [|d s IH]; intros i; cbn; [left; reflexivity|].
  destruct (Ascii.eqb d c); [right; lia|].
  destruct (IH (i + 1)) as [H|H]; [left; exact H|right; lia].
Qed.






Lemma tokenize_part_continue log_values multiword_value p :
  multiword_value <> [] -> span_continues p = true ->
  tokenize_part (log_values, multiword_value) p
  = (log_values, multiword_value ++ [p]).
Proof.
  intros Hne Hp. unfold span_continues, starts_span in Hp. unfold tokenize_part.
  destruct (is_single_value p).
  - destruct multiword_value; [congruence|]. reflexivity.
  - cbn [orb] in Hp. rewrite Hp. reflexivity.
Qed.

Lemma tokenize_continue parts :
  forall log_values multiword_value,
    multiword_value <> [] ->
    Forall (fun p => span_continues p = true) parts ->
    fold_left tokenize_part parts (log_values, multiword_value)
    = (log_values, multiword_value ++ parts).
Proof.
  induction parts as [|p parts IH]; intros log_values multiword_value Hne H;
    cbn [fold_left].
  - rewrite app_nil_r. reflexivity.
  - inversion H as [|? ? Hp Hrest]; subst.
    rewrite tokenize_part_continue by assumption.
    rewrite IH; [|destruct multiword_value; discriminate|exact Hrest].
    rewrite <- app_assoc. reflexivity.
Qed.

Lemma tokenize_part_open log_values p :
  span_opens p = true ->
  tokenize_part (log_values, []) p = (log_values, [p]).
Proof.
  unfold span_opens. intros H. apply andb_true_iff in H. destruct H as [Hs Ho].
  apply negb_true_iff in Hs. unfold tokenize_part, starts_span in *.
  rewrite Hs, Ho. reflexivity.
Qed.

Lemma tokenize_part_close log_values multiword_value p :
  span_closes p = true ->
  tokenize_part (log_values, multiword_value) p
  = (log_values ++ [Str.join " " (multiword_value ++ [p])], []).
Proof.
  unfold span_closes. intros H.
  apply andb_true_iff in H. destruct H as [H He].
  apply andb_true_iff in H. destruct H as [Hs Ho].
  apply negb_true_iff in Hs, Ho. unfold tokenize_part, starts_span, ends_span in *.
  rewrite Hs, Ho, He. reflexivity.
Qed.

(** X2: a part that opens a quoted or bracketed value, the parts that
    follow it and the part that closes it become one token, the parts
    joined by single spaces; the loop then goes on with no value open. *)
Theorem tokenize_span log_values o ms c rest :
  span_opens o = true ->
  Forall (fun p => span_continues p = true) ms ->
  span_closes c = true ->
  fold_left tokenize_part (o :: ms ++ c :: rest) (log_values, [])
  = fold_left tokenize_part rest
      (log_values ++ [Str.join " " (o :: ms ++ [c])], []).
Proof.
  intros Ho Hms Hc. cbn [fold_left].
  rewrite tokenize_part_open by exact Ho.
  rewrite fold_left_app.
  rewrite tokenize_continue by (discriminate || exact Hms).
  cbn [fold_left]. rewrite tokenize_part_close by exact Hc.
  reflexivity.
Qed.

Lemma tokenize_span_witness :
  fold_left tokenize_part
    (quoted "'GET" :: ["/api/v2/banner"] ++ quoted "HTTP/1.1'" :: ["200"])
    (["-"], [])
  = (["-"; quoted "'GET /api/v2/banner HTTP/1.1'"; "200"], []).
Proof.
  rewrite (tokenize_span ["-"] (quoted "'GET") ["/api/v2/banner"]
             (quoted "HTTP/1.1'") ["200"]).
  - vm_compute. reflexivity.
  - vm_compute. reflexivity.
  - repeat constructor.
  - vm_compute. reflexivity.
Defined.

(** X3: when a value is opened and no later part closes it, the opening
    part and all the parts after it give no token. *)
Theorem tokenize_unclosed_span log_values o ms :
  span_opens o = true ->
  Forall (fun p => span_continues p = true) ms ->
  fst (fold_left tokenize_part (o :: ms) (log_values, [])) = log_values.
Proof.
  intros Ho Hms. cbn [fold_left].
  rewrite tokenize_part_open by exact Ho.
  rewrite tokenize_continue by (discriminate || exact Hms).
  reflexivity.
Qed.

Lemma tokenize_unclosed_span_witness :
  fst (fold_left tokenize_part [quoted "'Mozilla/5.0"; "(X11;"; "Linux)"; "0.390"]
         (["-"], []))
  = ["-"].
Proof.
  apply (tokenize_unclosed_span ["-"] (quoted "'Mozilla/5.0")
           ["(X11;"; "Linux)"; "0.390"]).
  - vm_compute. reflexivity.
  - repeat constructor.
Defined.

Lemma tokenize_part_length st p :
  (List.length (fst (tokenize_part st p)) <= S (List.length (fst st)))%nat.
Proof.
  destruct st as [log_values multiword_value]. unfold tokenize_part.
  repeat match goal with
         | |- context [if ?b then _ else _] => destruct b
         end; cbn [fst]; rewrite ?length_app; cbn [List.length]; lia.
Qed.

Lemma tokenize_parts_length parts :
  forall st,
    (List.length (fst (fold_left tokenize_part parts st))
     <= List.length (fst st) + List.length parts)%nat.
Proof.
  induction parts as [|p parts IH]; intros st; cbn [fold_left List.length].
  - lia.
  - pose proof (IH (tokenize_part st p)) as H1.
    pose proof (tokenize_part_length st p) as H2. lia.
Qed.

(** X4: a line never gives more tokens than it has parts between
    spaces, so a line with fewer than 13 such parts makes the decoding
    raise [IndexError], whatever its quotes and brackets. *)
Theorem few_parts_raise (log_line : string) :
  (List.length (tokenize log_line) <= List.length (line_parts log_line))%nat
  /\ ((List.length (line_parts log_line) < 13)%nat ->
      decode (tokenize log_line) = Raise IndexError).
Proof.
  assert (H : (List.length (tokenize log_line)
               <= List.length (line_parts log_line))%nat).
  { unfold tokenize.
    pose proof (tokenize_parts_length (line_parts log_line) ([], [])) as H.
    cbn [fst List.length] in H. lia. }
  split; [exact H|]. intros Hlt. apply decode_short. lia.
Qed.

Lemma few_parts_raise_witness :
  decode (tokenize (quoted "1.2.3.4 - - [29/Jun/2017:03:50:22 +0300] 'GET / HTTP/1.1' 200")) = Raise IndexError.
Proof.
  apply (few_parts_raise (quoted "1.2.3.4 - - [29/Jun/2017:03:50:22 +0300] 'GET / HTTP/1.1' 200")).
  vm_compute. lia.
Defined.

(** ** The aggregation as a grouping *)

Lemma times_for_snoc url records u t :
  times_for url (records ++ [(u, t)])
  = times_for url records ++ (if String.eqb url u then [t] else []).
Proof.
  unfold times_for. rewrite filter_app, map_app. cbn.
  destruct (String.eqb url u); reflexivity.
Qed.

Lemma running_max_snoc times t :
  running_max (times ++ [t])
  = if py_lt (running_max times) (PyFloat t) then PyFloat t else running_max times.
Proof. unfold running_max. rewrite fold_left_app. reflexivity. Qed.

Lemma url_summary_snoc times t :
  {| count := count (url_summary times) + 1;
     time_sum := py_add (time_sum (url_summary times)) (PyFloat t);
     time_max := if py_lt (time_max (url_summary times)) (PyFloat t)
                 then PyFloat t else time_max (url_summary times) |}
  = url_summary (times ++ [t]).
Proof.
  unfold url_summary. cbn [count time_sum time_max].
  rewrite py_sum_snoc, running_max_snoc, length_app. cbn [List.length].
  f_equal. lia.
Qed.

Lemma first_seen_snoc l u : first_seen (l ++ [u]) = seen_step (first_seen l) u.
Proof. unfold first_seen. rewrite fold_left_app. reflexivity. Qed.

Lemma record_time_summary st records url t :
  counters_inv st -> summary_inv st records ->
  summary_inv (record_time st url t) (records ++ [(url, t)]).
Proof.
  intros (Hnd & Hkeys & _ & Hurl) (Htot & Hseen & Hget).
  assert (Hc : match dict_get url (url_counters st) with
               | Some c => c
               | None => new_url_counters
               end = url_summary (times_for url records)).
  { destruct (dict_get url (url_counters st)) as [c|] eqn:Hc.
    - apply (proj2 (Hget url)). exact Hc.
    - pose proof (dict_get_none_keys url _ _ Hkeys Hc) as Hn.
      rewrite (proj1 (Hget url)) in Hn.
      destruct (times_for url records); [reflexivity|discriminate]. }
  assert (Ht : match dict_get url (url_req_times st) with
               | Some ts => ts
               | None => []
               end = times_for url records).
  { rewrite (proj1 (Hget url)). destruct (times_for url records); reflexivity. }
  unfold summary_inv, record_time.
  cbn [total_counters url_counters url_req_times].
  rewrite Hc, Ht, url_summary_snoc.
  split; [|split].
  - rewrite Htot. cbn [total_count total_time_sum].
    rewrite map_app, fold_left_app, length_app. cbn [List.length map fold_left snd].
    f_equal. lia.
  - rewrite dict_keys_set, Hseen, map_app. cbn [map fst].
    rewrite first_seen_snoc. reflexivity.
  - intros url'. rewrite times_for_snoc.
    destruct (String.eqb_spec url' url) as [->|Hne].
    + rewrite !dict_get_set_same. split.
      * destruct (times_for url records); reflexivity.
      * intros c Hc'. inversion Hc'. reflexivity.
    + rewrite !dict_get_set_other by congruence. rewrite app_nil_r.
      apply Hget.
Qed.

Lemma aggregate_all_summary float_of_str log_parser :
  forall st st' records,
    counters_inv st -> summary_inv st records ->
    aggregate_all float_of_str st log_parser = Ok st' ->
    counters_inv st'
    /\ summary_inv st' (records ++ accepted_records float_of_str log_parser).
Proof.
  induction log_parser as [|item rest IH]; intros st st' records Hinv Hsum Hrun.
  - cbn in Hrun. inversion Hrun; subst st'. cbn. rewrite app_nil_r. auto.
  - cbn [aggregate_all] in Hrun.
    destruct item as [log_line|e]; cbn [bind] in Hrun; [|discriminate].
    destruct (aggregate float_of_str st log_line) as [st1|e] eqn:Hstep;
      cbn [bind] in Hrun; [|discriminate].
    cbn [accepted_records].
    destruct (accepted float_of_str (Ok log_line)) as [[url t]|] eqn:Hacc.
    + rewrite (aggregate_accepted float_of_str st log_line url t Hinv Hacc) in Hstep.
      inversion Hstep; subst st1; clear Hstep.
      destruct (IH _ _ (records ++ [(url, t)]) (record_time_inv st url t Hinv)
                  (record_time_summary st records url t Hinv Hsum) Hrun)
        as (Hinv' & Hsum').
      split; [exact Hinv'|]. rewrite <- app_assoc in Hsum'. exact Hsum'.
    + rewrite (aggregate_skipped float_of_str st st1 log_line Hacc Hstep) in Hrun.
      apply (IH _ _ records Hinv Hsum Hrun).
Qed.

Lemma initial_summary : summary_inv initial_counters [].
Proof.
  unfold summary_inv, initial_counters. cbn.
  split; [reflexivity|]. split; [reflexivity|].
  intros url. split; [reflexivity|]. intros c H. discriminate.
Qed.

(** A dictionary is the list of its keys, each with its value. *)
Lemma dict_as_map {V : Type} (d : dict V) (v : string -> V) :
  NoDup (dict_keys d) ->
  (forall k x, dict_get k d = Some x -> x = v k) ->
  d = map (fun k => (k, v k)) (dict_keys d).
Proof.
  unfold dict_keys. induction d as [|[k x] d IH]; intros Hnd Hget; [reflexivity|].
  cbn in *. inversion Hnd as [|? ? Hnotin Hnd']; subst.
  f_equal.
  - f_equal. apply Hget. rewrite String.eqb_refl. reflexivity.
  - apply IH; [exact Hnd'|].
    intros k' x' H. apply Hget.
    destruct (String.eqb_spec k' k) as [->|Hne]; [|exact H].
    exfalso. apply Hnotin.
    assert (Hin : existsb (String.eqb k) (dict_keys d) = true).
    { rewrite dict_get_in_keys, H. reflexivity. }
    apply existsb_eqb_In in Hin. exact Hin.
Qed.

(** X5: when the loop over the records ends without an exception, the
    counters are the summary of the records that were counted: the URLs
    in the order of their first record, each with the number, the list,
    the sum and the running maximum of the request times of its records
    in input order, and the number and the sum of all of them. *)
Theorem aggregate_all_groups float_of_str log_parser st :
  aggregate_all float_of_str initial_counters log_parser = Ok st ->
  st = summary_state (accepted_records float_of_str log_parser).
Proof.
  intros Hrun.
  destruct (aggregate_all_summary float_of_str log_parser _ _ []
              initial_counters_inv initial_summary Hrun)
    as ((Hnd & Hkeys & _ & _) & (Htot & Hseen & Hget)).
  cbn [app] in *.
  set (records := accepted_records float_of_str log_parser) in *.
  destruct st as [total counters times]. cbn [total_counters url_counters url_req_times] in *.
  unfold summary_state. f_equal.
  - exact Htot.
  - rewrite <- Hseen. apply dict_as_map; [exact Hnd|].
    intros k c Hc. apply (proj2 (Hget k)). exact Hc.
  - rewrite <- Hseen, Hkeys. apply dict_as_map; [rewrite <- Hkeys; exact Hnd|].
    intros k ts Hts. rewrite (proj1 (Hget k)) in Hts.
    destruct (times_for k records); [discriminate|]. inversion Hts. reflexivity.
Qed.

Lemma aggregate_all_groups_witness :
  aggregate_all float_of_decimal initial_counters test_log_parser
  = Ok (summary_state
          [("/page1", Float.dec 1 1); ("/page1", Float.dec 2 1);
           ("/page2", Float.dec 3 1); ("/page3", Float.dec 4 1)]).
Proof.
  destruct (aggregate_all float_of_decimal initial_counters test_log_parser)
    as [st|e] eqn:E; [|vm_compute in E; discriminate].
  rewrite (aggregate_all_groups float_of_decimal test_log_parser st E).
  reflexivity.
Defined.

(** ** The rows of the table *)

Lemma table_row_fields st url c r :
  table_row st url c = Ok r ->
  TableRow.url r = url /\ TableRow.count r = count c /\ TableRow.time_max r = time_max c
  /\ TableRow.time_sum r = py_round (time_sum c) 3
  /\ exists times,
       dict_get url (url_req_times st) = Some times
       /\ mediana times = Ok (TableRow.time_med r).
Proof.
  unfold table_row. intros H.
  destruct (py_truediv (PyInt (count c)) _); cbn [bind] in H; [|discriminate].
  destruct (py_truediv (time_sum c) (PyInt _)); cbn [bind] in H; [|discriminate].
  unfold dict_item in H.
  destruct (dict_get url (url_req_times st)) as [times|]; cbn [bind] in H;
    [|discriminate].
  destruct (mediana times) as [med|] eqn:Hmed; cbn [bind] in H; [|discriminate].
  destruct (py_truediv (time_sum c) (PyFloat _)); cbn [bind] in H; [|discriminate].
  inversion H; subst r; cbn.
  repeat split. exists times. split; [reflexivity|exact Hmed].
Qed.

Lemma table_rows_forall st (P : TableRow.t -> Prop) items :
  forall rows,
    (forall url c r, In (url, c) items -> table_row st url c = Ok r -> P r) ->
    table_rows st items = Ok rows ->
    Forall P rows.
Proof.
  induction items as [|[url c] items IH]; intros rows HP H.
  - inversion H. constructor.
  - cbn [table_rows] in H.
    destruct (table_row st url c) as [row|e] eqn:Hrow; cbn [bind] in H;
      [|discriminate].
    destruct (table_rows st items) as [rows'|e]; cbn [bind] in H; [|discriminate].
    inversion H; subst rows. constructor.
    + apply (HP url c); [left; reflexivity|exact Hrow].
    + apply IH; [|reflexivity].
      intros u c' r Hin. apply HP. right. exact Hin.
Qed.

Lemma table_rows_count st items :
  forall rows, table_rows st items = Ok rows -> rows_count rows = sum_counts items.
Proof.
  unfold rows_count, sum_counts.
  induction items as [|[url c] items IH]; intros rows H.
  - inversion H. reflexivity.
  - cbn [table_rows] in H.
    destruct (table_row st url c) as [row|e] eqn:Hrow; cbn [bind] in H;
      [|discriminate].
    destruct (table_rows st items) as [rows'|e]; cbn [bind] in H; [|discriminate].
    inversion H; subst rows. cbn [fold_right snd].
    rewrite (IH rows' eq_refl).
    destruct (table_row_fields st url c row Hrow) as (_ & Hc & _).
    rewrite Hc. reflexivity.
Qed.

(** X6: in the table that [write_report] builds, no two rows have the
    same URL, the counts of the rows add up to the number of counted
    records, and each row carries, for the request times of the records
    of its URL in input order, their number (at least 1), their
    [mediana], their running maximum unrounded and their sum rounded to
    three decimals. *)
Theorem table_rows_of_groups float_of_str log_parser report_size rows :
  write_report float_of_str log_parser report_size = Ok rows ->
  NoDup (map TableRow.url rows)
  /\ rows_count rows
     = Z.of_nat (List.length (accepted_records float_of_str log_parser))
  /\ Forall (fun r =>
       let times := times_for (TableRow.url r) (accepted_records float_of_str log_parser) in
       times <> []
       /\ TableRow.count r = Z.of_nat (List.length times)
       /\ mediana times = Ok (TableRow.time_med r)
       /\ TableRow.time_max r = running_max times
       /\ TableRow.time_sum r = py_round (py_sum times) 3) rows.
Proof.
  unfold write_report. intros H.
  destruct (aggregate_all float_of_str initial_counters log_parser) as [st|e] eqn:Hrun;
    cbn [bind] in H; [|discriminate].
  destruct (aggregate_all_summary float_of_str log_parser _ _ []
              initial_counters_inv initial_summary Hrun)
    as (Hinv & (Htot & Hseen & Hget)).
  cbn [app] in *. unfold table_data in H.
  pose proof Hinv as (Hnd & Hkeys & Htotal & Hurl).
  split; [rewrite (table_rows_urls st _ rows H); exact Hnd|].
  split.
  - rewrite (table_rows_count st _ rows H), <- Htotal, Htot. reflexivity.
  - apply (table_rows_forall st _ (url_counters st) rows); [|exact H].
    intros url c r Hin Hrow.
    destruct (table_row_fields st url c r Hrow)
      as (Hu & Hc & Hmax & Hsum & times & Hgt & Hmed).
    pose proof (dict_get_of_In url c _ Hnd Hin) as Hgc.
    pose proof (proj2 (Hget url) c Hgc) as Hsummary.
    rewrite (proj1 (Hget url)) in Hgt.
    rewrite Hu. cbv zeta.
    destruct (times_for url (accepted_records float_of_str log_parser))
      as [|t ts] eqn:Hts; [discriminate|].
    inversion Hgt; subst times. subst c.
    split; [discriminate|]. repeat split; assumption.
Qed.

Lemma table_rows_of_groups_witness :
  NoDup (map TableRow.url expected_table_data)
  /\ rows_count expected_table_data = 4.
Proof.
  destruct (table_rows_of_groups float_of_decimal test_log_parser
              (VNum (PyInt 100)) expected_table_data) as (Hnd & Hcount & _).
  - vm_compute. reflexivity.
  - split; [exact Hnd|]. rewrite Hcount. vm_compute. reflexivity.
Defined.

(** ** The pieces of a request *)

Lemma split_request (m u tail : string) :
  Str.find " " m = -1 -> Str.find " " u = -1 ->
  tail = "" \/ (exists p, tail = String " " p) ->
  firstn 2 (Str.split " " (m ++ " " ++ u ++ tail)%string) = [m; u].
Proof.
  intros Hm Hu Htail.
  change (m ++ " " ++ u ++ tail)%string with (m ++ String " " (u ++ tail))%string.
  rewrite (split_at_sep " " m (u ++ tail) 0) by (lia || exact Hm).
  destruct Htail as [->|(p & ->)].
  - assert (H : (u ++ "")%string = u).
    { clear. induction u as [|a u IH]; cbn; [reflexivity|]. rewrite IH. reflexivity. }
    rewrite H. rewrite (split_no_sep " " u 0) by (lia || exact Hu). reflexivity.
  - rewrite (split_at_sep " " u p 0) by (lia || exact Hu). reflexivity.
Qed.

(** X7: a record whose request is a method, a space and a path,
    possibly followed by a space and more text, is counted under the
    path alone, with its request time, unless the request is three
    characters long; the method and what follows the path play no
    role. *)
Theorem request_url float_of_str log_line m u tail t :
  request log_line = (m ++ " " ++ u ++ tail)%string ->
  Str.find " " m = -1 -> Str.find " " u = -1 ->
  tail = "" \/ (exists p, tail = String " " p) ->
  String.length (request log_line) <> 3%nat ->
  py_float float_of_str (request_time log_line) = Ok t ->
  accepted float_of_str (Ok log_line) = Some (u, t)
  /\ forall st, counters_inv st ->
       aggregate float_of_str st log_line = Ok (record_time st u t).
Proof.
  intros Hreq Hm Hu Htail Hlen Hf.
  assert (Hacc : accepted float_of_str (Ok log_line) = Some (u, t)).
  { unfold accepted.
    destruct (Z.eqb_spec (Str.len (request log_line)) 3) as [H3|_].
    - unfold Str.len in H3. lia.
    - rewrite Hreq, (split_request m u tail Hm Hu Htail), Hf. reflexivity. }
  split; [exact Hacc|].
  intros st Hinv. apply aggregate_accepted; assumption.
Qed.

Lemma request_url_witness :
  accepted float_of_decimal
    (Ok (parsed_entry ("POST" ++ " " ++ "/api/1/photo" ++ " HTTP/1.1")%string "0.133"))
  = Some ("/api/1/photo", Float.dec 133 3).
Proof.
  apply (request_url float_of_decimal
           (parsed_entry ("POST" ++ " " ++ "/api/1/photo" ++ " HTTP/1.1")%string "0.133")
           "POST" "/api/1/photo" " HTTP/1.1" (Float.dec 133 3)).
  - reflexivity.
  - reflexivity.
  - reflexivity.
  - right. eexists. reflexivity.
  - vm_compute. lia.
  - vm_compute. reflexivity.
Defined.

(** ** The exceptions of [write_report] *)

Lemma py_float_raises float_of_str v x :
  py_float float_of_str v = Raise x ->
  (x = ValueError /\ exists s, v = VStr s)
  \/ (x = OverflowError /\ exists n, v = VNum (PyInt n)).
Proof.
  destruct v as [s|[n|f]]; cbn; intros H.
  - destruct (float_of_str s); [discriminate|]. inversion H.
    left. split; [reflexivity|]. exists s. reflexivity.
  - destruct (Float.of_Z n); try discriminate. inversion H.
    right. split; [reflexivity|]. exists n. reflexivity.
  - discriminate.
Qed.

Lemma aggregate_raises float_of_str st log_line x :
  counters_inv st ->
  aggregate float_of_str st log_line = Raise x ->
  x = ValueError
  \/ (x = OverflowError /\ exists n, request_time log_line = VNum (PyInt n)).
Proof.
  intros (_ & Hkeys & _ & Hurl). unfold aggregate. intros H.
  destruct (Str.len (request log_line) =? 3); [discriminate|].
  destruct (firstn 2 (Str.split " " (request log_line))) as [|a [|u [|b r]]];
    try (inversion H; left; reflexivity).
  assert (Hf : forall k : float -> result Counters,
             (forall t, exists s, k t = Ok s) ->
             (t <- py_float float_of_str (request_time log_line) ;; k t) = Raise x ->
             x = ValueError
             \/ (x = OverflowError /\ exists n, request_time log_line = VNum (PyInt n))).
  { intros k Hk H'.
    destruct (py_float float_of_str (request_time log_line)) as [t|e] eqn:Hpf;
      cbn [bind] in H'.
    - destruct (Hk t) as (s & Hs). congruence.
    - inversion H'; subst e.
      destruct (py_float_raises _ _ _ Hpf) as [[-> _]|[-> Hn]]; auto. }
  destruct (dict_get u (url_counters st)) as [c|] eqn:Hc.
  - destruct (Hurl u c Hc) as (times & Hgt & _).
    unfold dict_item in H. rewrite Hc, Hgt in H. cbn [bind] in H.
    eapply Hf; [|exact H]. intros t. eexists. reflexivity.
  - unfold dict_item in H. rewrite !dict_get_set_same in H. cbn [bind] in H.
    eapply Hf; [|exact H]. intros t. eexists. reflexivity.
Qed.

Lemma aggregate_keeps_inv float_of_str st log_line st1 :
  counters_inv st ->
  aggregate float_of_str st log_line = Ok st1 ->
  counters_inv st1.
Proof.
  intros Hinv Hstep.
  destruct (accepted float_of_str (Ok log_line)) as [[url t]|] eqn:Hacc.
  - rewrite (aggregate_accepted float_of_str st log_line url t Hinv Hacc) in Hstep.
    inversion Hstep. apply record_time_inv. exact Hinv.
  - rewrite (aggregate_skipped float_of_str st st1 log_line Hacc Hstep). exact Hinv.
Qed.

Lemma aggregate_all_raises float_of_str log_parser :
  forall st x,
    counters_inv st ->
    aggregate_all float_of_str st log_parser = Raise x ->
    In (Raise x) log_parser
    \/ x = ValueError
    \/ (x = OverflowError
        /\ exists log_line n,
             In (Ok log_line) log_parser
             /\ request_time log_line = VNum (PyInt n)).
Proof.
  induction log_parser as [|item rest IH]; intros st x Hinv H; [discriminate|].
  cbn [aggregate_all] in H.
  destruct item as [log_line|e]; cbn [bind] in H.
  - destruct (aggregate float_of_str st log_line) as [st1|e] eqn:Hstep;
      cbn [bind] in H.
    + destruct (IH st1 x (aggregate_keeps_inv _ _ _ _ Hinv Hstep) H)
        as [Hin|[Hv|(Ho & l & n & Hin & Hn)]].
      * left. right. exact Hin.
      * right. left. exact Hv.
      * right. right. split; [exact Ho|]. exists l, n. split; [right; exact Hin|exact Hn].
    + inversion H; subst e.
      destruct (aggregate_raises _ _ _ _ Hinv Hstep) as [Hv|(Ho & n & Hn)].
      * right. left. exact Hv.
      * right. right. split; [exact Ho|]. exists log_line, n.
        split; [left; reflexivity|exact Hn].
  - inversion H. left. left. reflexivity.
Qed.

Lemma table_rows_raises st items x :
  (forall url c, In (url, c) items ->
     exists times, dict_get url (url_req_times st) = Some times) ->
  table_rows st items = Raise x ->
  x = ZeroDivisionError.
Proof.
  induction items as [|[url c] items IH]; intros Hall H; [discriminate|].
  cbn [table_rows] in H.
  destruct (table_row st url c) as [row|e] eqn:Hrow; cbn [bind] in H.
  - destruct (table_rows st items) as [rows|e] eqn:Hrows; cbn [bind] in H;
      [discriminate|].
    inversion H; subst e. apply IH; [|reflexivity].
    intros u c' Hin. apply (Hall u c'). right. exact Hin.
  - inversion H; subst e. clear H IH.
    destruct (Hall url c (or_introl eq_refl)) as (times & Hgt).
    destruct (mediana_total times) as (med & Hmed).
    unfold table_row, dict_item, py_truediv in Hrow. rewrite Hgt in Hrow.
    repeat match type of Hrow with
           | context [if ?b then _ else _] =>
               destruct b; cbn [bind] in Hrow; [inversion Hrow; reflexivity|]
           end.
    rewrite Hmed in Hrow. cbn [bind] in Hrow.
    repeat match type of Hrow with
           | context [if ?b then _ else _] =>
               destruct b; cbn [bind] in Hrow; [inversion Hrow; reflexivity|]
           end.
    discriminate.
Qed.

Lemma write_report_raises_cases float_of_str log_parser report_size x :
  write_report float_of_str log_parser report_size = Raise x ->
  In (Raise x) log_parser
  \/ x = ValueError
  \/ x = ZeroDivisionError
  \/ (x = OverflowError
      /\ exists log_line n,
           In (Ok log_line) log_parser
           /\ request_time log_line = VNum (PyInt n)).
Proof.
  unfold write_report. intros H.
  destruct (aggregate_all float_of_str initial_counters log_parser) as [st|e] eqn:Hrun;
    cbn [bind] in H.
  - right. right. left. unfold table_data in H.
    destruct (aggregate_all_inv float_of_str log_parser _ _ initial_counters_inv Hrun)
      as (Hinv & _).
    apply (table_rows_raises st (url_counters st) x); [|exact H].
    intros url c Hin. apply (counters_inv_entry st url c Hinv Hin).
  - inversion H; subst e.
    destruct (aggregate_all_raises _ _ _ _ initial_counters_inv Hrun)
      as [Hin|[Hv|Ho]]; auto.
Qed.

(** X8: when [write_report] ends with an exception, either the
    generator raised it, or it is a [ValueError] (a request of one
    piece, or a request time that [float] rejects), a
    [ZeroDivisionError] of the table, or the [OverflowError] of an
    integer request time; the look-ups in the dictionaries and the
    indexing in [mediana] never fail. *)
Theorem write_report_exceptions float_of_str log_parser report_size x :
  write_report float_of_str log_parser report_size = Raise x ->
  In (Raise x) log_parser
  \/ x = ValueError
  \/ x = ZeroDivisionError
  \/ (x = OverflowError
      /\ exists log_line n,
           In (Ok log_line) log_parser
           /\ request_time log_line = VNum (PyInt n)).
Proof. exact (write_report_raises_cases float_of_str log_parser report_size x). Qed.

Lemma write_report_exceptions_witness :
  In (Raise IndexError) (log_parser [full_line; short_line])
  \/ IndexError = ValueError
  \/ IndexError = ZeroDivisionError
  \/ (IndexError = OverflowError
      /\ exists log_line n,
           In (Ok log_line) (log_parser [full_line; short_line])
           /\ request_time log_line = VNum (PyInt n)).
Proof.
  apply (write_report_exceptions float_of_decimal (log_parser [full_line; short_line])
           (VStr "1000") IndexError).
  vm_compute. reflexivity.
Defined.

(** X9: a record that is not skipped, whose request has at least two
    pieces and whose request time is a text that [float] rejects, ends
    [write_report] with a [ValueError]; the record is not skipped. *)
Theorem unparsable_request_time float_of_str pre log_line post report_size st m u s :
  aggregate_all float_of_str initial_counters pre = Ok st ->
  String.length (request log_line) <> 3%nat ->
  firstn 2 (Str.split " " (request log_line)) = [m; u] ->
  request_time log_line = VStr s ->
  float_of_str s = None ->
  write_report float_of_str (pre ++ Ok log_line :: post) report_size
  = Raise ValueError.
Proof.
  intros Hpre Hlen Hsplit Ht Hnone.
  destruct (aggregate_all_inv float_of_str pre _ _ initial_counters_inv Hpre)
    as ((_ & Hkeys & _ & Hurl) & _).
  assert (Hstep : aggregate float_of_str st log_line = Raise ValueError).
  { unfold aggregate.
    destruct (Z.eqb_spec (Str.len (request log_line)) 3) as [H3|_];
      [unfold Str.len in H3; lia|].
    rewrite Hsplit, Ht. cbn [py_float]. rewrite Hnone.
    destruct (dict_get u (url_counters st)) as [c|] eqn:Hc.
    - unfold dict_item. rewrite Hc. reflexivity.
    - unfold dict_item. rewrite dict_get_set_same. reflexivity. }
  unfold write_report. rewrite aggregate_all_app, Hpre. cbn [bind aggregate_all].
  rewrite Hstep. reflexivity.
Qed.

Lemma unparsable_request_time_witness :
  write_report float_of_decimal
    (log_parser [full_line]
     ++ Ok (parsed_entry (quoted "'GET /index.html HTTP/1.1'") "-") :: [])
    (VStr "1000")
  = Raise ValueError.
Proof.
  destruct (aggregate_all float_of_decimal initial_counters (log_parser [full_line]))
    as [st|e] eqn:E; [|vm_compute in E; discriminate].
  apply (unparsable_request_time float_of_decimal (log_parser [full_line])
           (parsed_entry (quoted "'GET /index.html HTTP/1.1'") "-") [] (VStr "1000")
           st (quoted "'GET") "/index.html" "-").
  - exact E.
  - vm_compute. lia.
  - vm_compute. reflexivity.
  - reflexivity.
  - vm_compute. reflexivity.
Defined.

(** ** Maximum and median *)

Lemma leb_refl (a : float) : Float.is_nan a = false -> Float.leb a a = true.
Proof.
  intros H. unfold Float.leb, SFleb. rewrite (SFcompare_refl a H). reflexivity.
Qed.

Lemma fold_max_is_max rest :
  forall x m,
    no_nan (x :: rest) ->
    fold_left (fun m x => if Float.ltb m x then x else m) rest x = m ->
    In m (x :: rest)
    /\ Float.leb x m = true
    /\ Forall (fun t => Float.leb t m = true) rest.
Proof.
  induction rest as [|y rest IH]; intros x m Hnan Hm.
  - cbn in Hm. subst m. apply Forall_cons_iff in Hnan. destruct Hnan as [Hx _].
    split; [left; reflexivity|]. split; [apply leb_refl; exact Hx|constructor].
  - apply Forall_cons_iff in Hnan. destruct Hnan as [Hx Hrest].
    pose proof Hrest as Hrest0.
    apply Forall_cons_iff in Hrest0. destruct Hrest0 as [Hy Hrest'].
    cbn [fold_left] in Hm.
    destruct (Float.ltb x y) eqn:Hxy.
    + destruct (IH y m Hrest Hm) as (Hin & Hle & Hall).
      split; [right; exact Hin|].
      split; [apply (leb_trans x y m); [apply ltb_leb; exact Hxy|exact Hle]|].
      constructor; assumption.
    + assert (Hnan' : no_nan (x :: rest)) by (constructor; assumption).
      destruct (IH x m Hnan' Hm) as (Hin & Hle & Hall).
      split; [destruct Hin as [<-|Hin]; [left; reflexivity|right; right; exact Hin]|].
      split; [exact Hle|].
      constructor; [|exact Hall].
      apply (leb_trans y x m); [apply not_ltb_leb; assumption|exact Hle].
Qed.

Lemma py_max_is_max (times : list float) (m : float) :
  no_nan times -> py_max times = Some m ->
  In m times /\ Forall (fun t => Float.leb t m = true) times.
Proof.
  destruct times as [|x rest]; intros Hnan H; [discriminate|].
  cbn in H. injection H as Hm.
  destruct (fold_max_is_max rest x m Hnan Hm) as (Hin & Hle & Hall).
  split; [exact Hin|]. constructor; assumption.
Qed.

Lemma times_for_In url records t :
  In t (times_for url records) -> In t (map snd records).
Proof.
  unfold times_for. intros H. apply in_map_iff in H.
  destruct H as (ut & Ht & Hin). apply filter_In in Hin.
  apply in_map_iff. exists ut. split; [exact Ht|apply Hin].
Qed.

(** X10: when every counted request time is non-negative, the
    [time_max] of each row equals one of the request times of its URL,
    and none of them is greater. *)
Theorem time_max_is_maximum float_of_str log_parser report_size rows :
  write_report float_of_str log_parser report_size = Ok rows ->
  Forall (fun t => nonneg t = true) (accepted_times float_of_str log_parser) ->
  Forall (fun r =>
    exists m,
      In m (times_for (TableRow.url r) (accepted_records float_of_str log_parser))
      /\ Forall (fun t => Float.leb t m = true)
           (times_for (TableRow.url r) (accepted_records float_of_str log_parser))
      /\ py_eq (TableRow.time_max r) (PyFloat m) = true) rows.
Proof.
  unfold write_report. intros H Hnn.
  destruct (aggregate_all float_of_str initial_counters log_parser) as [st|e] eqn:Hrun;
    cbn [bind] in H; [|discriminate].
  destruct (aggregate_all_inv float_of_str log_parser _ _ initial_counters_inv Hrun)
    as (Hinv & _ & _ & Hmax).
  destruct (aggregate_all_summary float_of_str log_parser _ _ []
              initial_counters_inv initial_summary Hrun)
    as (_ & (_ & _ & Hget)).
  cbn [app] in Hget. unfold table_data in H.
  pose proof Hinv as (Hnd & _).
  apply (table_rows_forall st _ (url_counters st) rows); [|exact H].
  intros url c r Hin Hrow.
  destruct (table_row_fields st url c r Hrow)
    as (Hu & _ & Htm & _ & times & Hgt & _).
  pose proof (dict_get_of_In url c _ Hnd Hin) as Hgc.
  destruct (max_agrees_eq _ _ (Hmax Hnn initial_max_inv url c times Hgc Hgt))
    as (m & Hm & Heq).
  rewrite (proj1 (Hget url)) in Hgt.
  destruct (times_for url (accepted_records float_of_str log_parser))
    as [|t ts] eqn:Hts; [discriminate|].
  inversion Hgt; subst times.
  assert (Hnan : no_nan (t :: ts)).
  { apply Forall_forall. intros x Hx. apply nonneg_not_nan.
    apply (proj1 (Forall_forall _ _) Hnn). unfold accepted_times.
    apply (times_for_In url). rewrite Hts. exact Hx. }
  destruct (py_max_is_max (t :: ts) m Hnan Hm) as (Hinm & Hall).
  exists m. rewrite Hu, Hts, Htm. auto.
Qed.

Lemma time_max_is_maximum_witness :
  Forall (fun r =>
    exists m,
      In m (times_for (TableRow.url r) (accepted_records float_of_decimal test_log_parser))
      /\ Forall (fun t => Float.leb t m = true)
           (times_for (TableRow.url r) (accepted_records float_of_decimal test_log_parser))
      /\ py_eq (TableRow.time_max r) (PyFloat m) = true) expected_table_data.
Proof.
  apply (time_max_is_maximum float_of_decimal test_log_parser (VNum (PyInt 100))).
  - vm_compute. reflexivity.
  - vm_compute. repeat constructor.
Defined.

Lemma strongly_sorted_split (R : float -> float -> Prop) lower v upper :
  StronglySorted R (lower ++ v :: upper) ->
  Forall (fun x => R x v) lower /\ Forall (R v) upper.
Proof.
  induction lower as [|a lower IH]; cbn; intros H.
  - inversion H; subst. split; [constructor|assumption].
  - inversion H as [|? ? Hs Hall]; subst.
    destruct (IH Hs) as (Hl & Hu). split; [|exact Hu].
    constructor; [|exact Hl].
    apply (proj1 (Forall_forall _ _) Hall). apply in_or_app. right. left. reflexivity.
Qed.

(** X11: for a non-empty list of request times without NaN, [mediana]
    returns an element [v] that splits the list: the times can be
    arranged as [floor(n/2)] times that are at most [v], then [v], then
    times that are at least [v]. *)
Theorem mediana_splits (values : list float) :
  values <> [] -> no_nan values ->
  exists lower v upper,
    mediana values = Ok (PyFloat v)
    /\ Permutation values (lower ++ v :: upper)
    /\ List.length lower = Nat.div (List.length values) 2
    /\ Forall (fun x => Float.leb x v = true) lower
    /\ Forall (fun x => Float.leb v x = true) upper.
Proof.
  intros Hne Hnan.
  destruct (mediana_nonempty values Hne) as (v & Hnth & Hmed).
  destruct (nth_error_split _ _ Hnth) as (lower & upper & Hsplit & Hlen).
  exists lower, v, upper. split; [exact Hmed|].
  split; [rewrite <- Hsplit; apply sorted_perm|]. split; [exact Hlen|].
  pose proof (sorted_nondecreasing values Hnan) as Hs.
  unfold nondecreasing in Hs. rewrite Hsplit in Hs.
  apply (strongly_sorted_split _ lower v upper Hs).
Qed.

Lemma mediana_splits_witness :
  exists lower v upper,
    mediana [Float.dec 4 1; Float.dec 1 1; Float.dec 3 1] = Ok (PyFloat v)
    /\ List.length lower = 1%nat
    /\ Forall (fun x => Float.leb x v = true) lower
    /\ Forall (fun x => Float.leb v x = true) upper.
Proof.
  destruct (mediana_splits [Float.dec 4 1; Float.dec 1 1; Float.dec 3 1])
    as (lower & v & upper & Hmed & _ & Hlen & Hl & Hu).
  - discriminate.
  - repeat constructor.
  - exists lower, v, upper. auto.
Defined.

(** ** The values of the configuration *)

Lemma missing_param_set_other (uc : dict string) p v k :
  p <> k -> missing_param (dict_set p v uc) k = missing_param uc k.
Proof.
  intros Hne. unfold missing_param. rewrite dict_get_set_other by exact Hne.
  reflexivity.
Qed.

Lemma dict_get_not_in_keys {V : Type} (k : string) (d : dict V) :
  ~ In k (dict_keys d) -> dict_get k d = None.
Proof.
  intros Hnotin. destruct (dict_get k d) eqn:H; [|reflexivity].
  exfalso. apply Hnotin. apply existsb_eqb_In.
  rewrite dict_get_in_keys, H. reflexivity.
Qed.

Lemma fill_defaults_get (default : dict string) :
  forall (user_config : dict string) k,
    NoDup (dict_keys default) ->
    dict_get k (fill_defaults default user_config)
    = if missing_param user_config k
      then match dict_get k default with
           | Some d => Some d
           | None => dict_get k user_config
           end
      else dict_get k user_config.
Proof.
  unfold fill_defaults.
  induction default as [|[p v] default IH]; intros uc k Hnd.
  - cbn. destruct (missing_param uc k); reflexivity.
  - cbn [fold_left fst snd]. cbn [dict_keys map fst] in Hnd.
    inversion Hnd as [|? ? Hnotin Hnd']; subst.
    rewrite IH by exact Hnd'. cbn [dict_get].
    destruct (String.eqb_spec k p) as [->|Hne].
    + rewrite (dict_get_not_in_keys p default Hnotin).
      destruct (missing_param uc p) eqn:Hmiss.
      * rewrite dict_get_set_same.
        destruct (missing_param (dict_set p v uc) p); reflexivity.
      * rewrite Hmiss. reflexivity.
    + destruct (missing_param uc p).
      * rewrite missing_param_set_other by congruence.
        rewrite dict_get_set_other by congruence. reflexivity.
      * reflexivity.
Qed.

Lemma parse_config_lookup lines default cfg :
  NoDup (dict_keys default) ->
  parse_config (Some lines) default = Some cfg ->
  exists user_config,
    read_user_config lines [] = Some user_config
    /\ forall k,
         dict_get k cfg
         = match dict_get k user_config with
           | Some v =>
               if String.eqb v "" then
                 match dict_get k default with
                 | Some d => Some d
                 | None => Some v
                 end
               else Some v
           | None => dict_get k default
           end.
Proof.
  intros Hnd H. unfold parse_config in H.
  destruct (read_user_config lines []) as [uc|] eqn:Huc; [|discriminate].
  inversion H; subst cfg. exists uc. split; [reflexivity|].
  intros k. rewrite fill_defaults_get by exact Hnd.
  unfold missing_param. destruct (dict_get k uc) as [v|]; [|destruct (dict_get k default); reflexivity].
  destruct (String.eqb v ""); reflexivity.
Qed.

(** X12: in the configuration that [parse_config] returns, a key has the
    value that the file gives it when that value is not empty, and
    otherwise the value of the default configuration; a key that only
    the file has keeps its value. *)
Theorem parse_config_values lines default cfg :
  NoDup (dict_keys default) ->
  parse_config (Some lines) default = Some cfg ->
  exists user_config,
    read_user_config lines [] = Some user_config
    /\ forall k,
         dict_get k cfg
         = match dict_get k user_config with
           | Some v =>
               if String.eqb v "" then
                 match dict_get k default with
                 | Some d => Some d
                 | None => Some v
                 end
               else Some v
           | None => dict_get k default
           end.
Proof. exact (parse_config_lookup lines default cfg). Qed.

Lemma parse_config_values_witness :
  exists cfg,
    parse_config (Some [("LOG_DIR=/var/log/nginx" ++ nl)%string;
                        ("REPORT_DIR=" ++ nl)%string;
                        ("OWNER=ops" ++ nl)%string]) config = Some cfg
    /\ dict_get "LOG_DIR" cfg = Some "/var/log/nginx"
    /\ dict_get "REPORT_DIR" cfg = Some "./reports"
    /\ dict_get "REPORT_SIZE" cfg = Some "1000"
    /\ dict_get "OWNER" cfg = Some "ops".
Proof.
  set (lines := [("LOG_DIR=/var/log/nginx" ++ nl)%string;
                 ("REPORT_DIR=" ++ nl)%string;
                 ("OWNER=ops" ++ nl)%string]).
  destruct (parse_config (Some lines) config) as [cfg|] eqn:E;
    [|vm_compute in E; discriminate].
  exists cfg. split; [reflexivity|].
  destruct (parse_config_values lines config cfg) as (uc & Huc & Hget).
  - vm_compute. repeat constructor; cbn; intuition discriminate.
  - exact E.
  - vm_compute in Huc. inversion Huc; subst uc.
    rewrite !Hget. repeat split; reflexivity.
Defined.

Lemma read_user_config_app l1 :
  forall l2 user_config,
    read_user_config (l1 ++ l2) user_config
    = match read_user_config l1 user_config with
      | Some uc => read_user_config l2 uc
      | None => None
      end.
Proof.
  induction l1 as [|line l1 IH]; intros l2 user_config; [reflexivity|].
  cbn [app read_user_config].
  destruct (Str.split "=" line) as [|p0 [|p1 ps]]; try reflexivity.
  apply IH.
Qed.

Lemma read_user_config_other_keys post k :
  forall user_config uc,
    Forall (fun l => Str.strip (hd "" (Str.split "=" l)) <> k) post ->
    read_user_config post user_config = Some uc ->
    dict_get k uc = dict_get k user_config.
Proof.
  induction post as [|line post IH]; intros user_config uc Hall H.
  - inversion H. reflexivity.
  - inversion Hall as [|? ? Hline Hpost]; subst.
    cbn [read_user_config] in H.
    destruct (Str.split "=" line) as [|p0 [|p1 ps]]; try discriminate.
    cbn [hd] in Hline.
    rewrite (IH _ uc Hpost H). apply dict_get_set_other. exact Hline.
Qed.

(** X13: when several lines of the config file set the same key, the
    last of them gives the value: the key of a line (the stripped text
    before its first [=]) is mapped to the stripped text between its
    first and second [=] unless a later line has the same key. *)
Theorem last_config_line_wins pre line post user_config p0 p1 ps :
  Str.split "=" line = p0 :: p1 :: ps ->
  Forall (fun l => Str.strip (hd "" (Str.split "=" l)) <> Str.strip p0) post ->
  read_user_config (pre ++ line :: post) [] = Some user_config ->
  dict_get (Str.strip p0) user_config = Some (Str.strip p1).
Proof.
  intros Hsplit Hpost H. rewrite read_user_config_app in H.
  destruct (read_user_config pre []) as [uc1|]; [|discriminate].
  cbn [read_user_config] in H. rewrite Hsplit in H.
  rewrite (read_user_config_other_keys post _ _ user_config Hpost H).
  apply dict_get_set_same.
Qed.

Lemma last_config_line_wins_witness :
  exists user_config,
    read_user_config (["REPORT_SIZE=10"; "LOG_DIR=a"] ++ "REPORT_SIZE = 20" :: ["LOG_DIR=b"]) []
    = Some user_config
    /\ dict_get "REPORT_SIZE" user_config = Some "20".
Proof.
  destruct (read_user_config
              (["REPORT_SIZE=10"; "LOG_DIR=a"] ++ "REPORT_SIZE = 20" :: ["LOG_DIR=b"]) [])
    as [uc|] eqn:E; [|vm_compute in E; discriminate].
  exists uc. split; [reflexivity|].
  apply (last_config_line_wins ["REPORT_SIZE=10"; "LOG_DIR=a"] "REPORT_SIZE = 20"
           ["LOG_DIR=b"] uc "REPORT_SIZE " " 20" []).
  - reflexivity.
  - repeat constructor. vm_compute. discriminate.
  - exact E.
Defined.

(** ** What the selection returns *)

Lemma scan_log_files_filter processed_logs log_files :
  forall max_date last_log_file,
    scan_log_files processed_logs log_files max_date last_log_file
    = scan_log_files []
        (filter (fun f => negb (is_processed f processed_logs)) log_files)
        max_date last_log_file.
Proof.
  induction log_files as [|f files IH]; intros max_date last_log_file;
    [reflexivity|].
  cbn [scan_log_files filter].
  destruct (is_processed f processed_logs); cbn [negb]; [apply IH|].
  cbn [scan_log_files is_processed existsb].
  destruct (date_pattern _); [|reflexivity].
  destruct (strptime_Ymd _); cbn [bind]; [|reflexivity].
  destruct (datetime_gtb _ _); apply IH.
Qed.

Lemma get_last_log_file_candidates log_dir registry entries :
  get_last_log_file log_dir registry entries
  = (r <- scan_log_files [] (candidates registry entries) datetime_min None ;;
     match r with
     | None => Ok None
     | Some (max_date, last_log_file) =>
         match last_log_file with
         | None => Ok None
         | Some name =>
             if String.eqb name "" then Ok None
             else Ok (Some {| file := path_join log_dir name; date := max_date |})
         end
     end).
Proof.
  unfold get_last_log_file, candidates. rewrite scan_log_files_filter. reflexivity.
Qed.

Lemma datetime_gtb_trans (a b c : datetime) :
  datetime_gtb a b = true -> datetime_gtb b c = true -> datetime_gtb a c = true.
Proof. rewrite !datetime_gtb_spec. lia. Qed.

Lemma datetime_gtb_le_trans (a b c : datetime) :
  datetime_gtb a b = true -> datetime_gtb c b = false -> datetime_gtb a c = true.
Proof. rewrite !datetime_gtb_spec, datetime_gtb_false. lia. Qed.

Lemma datetime_le_gtb_trans (a b c : datetime) :
  datetime_gtb b a = false -> datetime_gtb b c = true -> datetime_gtb a c = true.
Proof. rewrite !datetime_gtb_spec, datetime_gtb_false. lia. Qed.

Lemma embedded_date_scan f :
  forall d, embedded_date f = Some d ->
    date_pattern (Str.last_chars 8 (Str.replace ".gz" "" f)) = true
    /\ strptime_Ymd (Str.last_chars 8 (Str.replace ".gz" "" f)) = Ok d.
Proof.
  unfold embedded_date. intros d H.
  destruct (date_pattern _); [|discriminate].
  destruct (strptime_Ymd _); [|discriminate].
  inversion H. split; reflexivity.
Qed.

(** The loop over names none of which is in the registry: when it ends
    with a date, every name carries a date that is not later; and unless
    the loop ends as it started, the name it ends with carries that
    date, which is later than the date it started with and than the
    dates of all names before it. *)
Lemma scan_log_files_sound log_files :
  forall max_date last_log_file m l,
    scan_log_files [] log_files max_date last_log_file = Ok (Some (m, l)) ->
    datetime_gtb max_date m = false
    /\ Forall (fun g => exists d, embedded_date g = Some d
                                  /\ datetime_gtb d m = false) log_files
    /\ ((m = max_date /\ l = last_log_file)
        \/ (exists pre f post,
               log_files = pre ++ f :: post
               /\ l = Some f
               /\ embedded_date f = Some m
               /\ datetime_gtb m max_date = true
               /\ Forall (fun g => exists d, embedded_date g = Some d
                                             /\ datetime_gtb m d = true) pre)).
Proof.
  induction log_files as [|f files IH]; intros max_date last_log_file m l H.
  - cbn in H. inversion H; subst.
    split; [apply datetime_le_refl|]. split; [constructor|].
    left. split; reflexivity.
  - cbn [scan_log_files is_processed existsb] in H.
    destruct (embedded_date f) as [d|] eqn:Hd.
    + destruct (embedded_date_scan f d Hd) as (Hpat & Hstr).
      rewrite Hpat, Hstr in H. cbn [bind] in H.
      destruct (datetime_gtb d max_date) eqn:Hgt.
      * destruct (IH _ _ _ _ H) as (Hge & Hall & Hcases).
        split; [eapply datetime_le_trans; [apply datetime_gtb_le; exact Hgt|exact Hge]|].
        split; [constructor; [exists d; split; [exact Hd|exact Hge]|exact Hall]|].
        right. destruct Hcases as [[-> ->]|(pre & g & post & -> & -> & Hg & Hgd & Hpre)].
        -- exists [], f, files. repeat split; try assumption. constructor.
        -- exists (f :: pre), g, post. repeat split; try assumption.
           ++ eapply datetime_gtb_trans; eassumption.
           ++ constructor; [|exact Hpre]. exists d. split; [exact Hd|exact Hgd].
      * destruct (IH _ _ _ _ H) as (Hge & Hall & Hcases).
        split; [exact Hge|].
        split; [constructor; [|exact Hall]|].
        { exists d. split; [exact Hd|].
          eapply datetime_le_trans; [exact Hgt|exact Hge]. }
        destruct Hcases as [Hsame|(pre & g & post & -> & -> & Hg & Hgm & Hpre)];
          [left; exact Hsame|].
        right. exists (f :: pre), g, post. repeat split; try assumption.
        constructor; [|exact Hpre]. exists d. split; [exact Hd|].
        eapply datetime_gtb_le_trans; eassumption.
    + exfalso. unfold embedded_date in Hd.
      destruct (date_pattern _); [|discriminate].
      destruct (strptime_Ymd _); [discriminate|]. cbn [bind] in H. discriminate.
Qed.

Lemma get_last_log_file_position log_dir registry entries lf :
  get_last_log_file log_dir registry entries = Ok (Some lf) ->
  exists pre f post,
    candidates registry entries = pre ++ f :: post
    /\ file lf = path_join log_dir f
    /\ embedded_date f = Some (date lf)
    /\ datetime_gtb (date lf) datetime_min = true
    /\ Forall (fun g => exists d, embedded_date g = Some d
                                  /\ datetime_gtb (date lf) d = true) pre
    /\ Forall (fun g => exists d, embedded_date g = Some d
                                  /\ datetime_gtb d (date lf) = false) post.
Proof.
  rewrite get_last_log_file_candidates. intros H.
  destruct (scan_log_files [] (candidates registry entries) datetime_min None)
    as [[[m l]|]|e] eqn:Hscan; cbn [bind] in H; try discriminate.
  destruct l as [name|]; [|discriminate].
  destruct (String.eqb name ""); [discriminate|].
  inversion H; subst lf; clear H. cbn [file date].
  destruct (scan_log_files_sound _ _ _ _ _ Hscan) as (_ & Hall & Hcases).
  destruct Hcases as [[_ Hl]|(pre & f & post & Hc & Hl & Hf & Hgt & Hpre)];
    [discriminate|].
  inversion Hl; subst name.
  exists pre, f, post. repeat split; try assumption.
  rewrite Hc in Hall. apply Forall_app in Hall. destruct Hall as [_ Hall].
  inversion Hall; assumption.
Qed.

(** X14: the file that [get_last_log_file] returns is one of the names
    of the directory that match the pattern and are not in the
    registry, joined to the directory; its date is the one read in its
    name and is later than 0001-01-01; the candidates listed before it
    have earlier dates and those listed after it have no later date, so
    that among files of the same date the first one listed is
    returned. *)
Theorem get_last_log_file_sound log_dir registry entries lf :
  get_last_log_file log_dir registry entries = Ok (Some lf) ->
  exists pre f post,
    candidates registry entries = pre ++ f :: post
    /\ file lf = path_join log_dir f
    /\ embedded_date f = Some (date lf)
    /\ datetime_gtb (date lf) datetime_min = true
    /\ Forall (fun g => exists d, embedded_date g = Some d
                                  /\ datetime_gtb (date lf) d = true) pre
    /\ Forall (fun g => exists d, embedded_date g = Some d
                                  /\ datetime_gtb d (date lf) = false) post.
Proof. exact (get_last_log_file_position log_dir registry entries lf). Qed.

Lemma get_last_log_file_sound_witness :
  exists pre f post,
    candidates None
      [("nginx-access-ui.log-20230302", false);
       ("nginx-access-ui.log-20230303", false);
       ("nginx-access-ui.log-20230303.gz", false)]
    = pre ++ f :: post
    /\ path_join "log" "nginx-access-ui.log-20230303" = path_join "log" f.
Proof.
  destruct (get_last_log_file_sound "log" None
              [("nginx-access-ui.log-20230302", false);
               ("nginx-access-ui.log-20230303", false);
               ("nginx-access-ui.log-20230303.gz", false)]
              {| file := path_join "log" "nginx-access-ui.log-20230303";
                 date := {| year := 2023; month := 3; day := 3 |} |})
    as (pre & f & post & Hc & Hf & _).
  - vm_compute. reflexivity.
  - exists pre, f, post. split; [exact Hc|exact Hf].
Defined.

Lemma scan_log_files_dated pre :
  forall rest max_date last_log_file,
    Forall (fun g => exists d, embedded_date g = Some d) pre ->
    exists m l,
      scan_log_files [] (pre ++ rest) max_date last_log_file
      = scan_log_files [] rest m l.
Proof.
  induction pre as [|f pre IH]; intros rest max_date last_log_file Hall.
  - exists max_date, last_log_file. reflexivity.
  - inversion Hall as [|? ? (d & Hd) Hpre]; subst.
    destruct (embedded_date_scan f d Hd) as (Hpat & Hstr).
    cbn [app scan_log_files is_processed existsb]. rewrite Hpat, Hstr. cbn [bind].
    destruct (datetime_gtb d max_date); apply IH; exact Hpre.
Qed.

(** X15: the first candidate in whose name no date can be read ends the
    selection, whatever the other candidates are: with [None] when its
    name does not end (apart from [.gz]) in eight digits, with a
    [ValueError] when the eight digits name no day of the calendar. *)
Theorem undated_candidate_ends_selection log_dir registry entries pre f post :
  candidates registry entries = pre ++ f :: post ->
  Forall (fun g => exists d, embedded_date g = Some d) pre ->
  embedded_date f = None ->
  get_last_log_file log_dir registry entries
  = if date_pattern (Str.last_chars 8 (Str.replace ".gz" "" f))
    then Raise ValueError else Ok None.
Proof.
  intros Hc Hpre Hf. rewrite get_last_log_file_candidates, Hc.
  destruct (scan_log_files_dated pre (f :: post) datetime_min None Hpre)
    as (m & l & ->).
  cbn [scan_log_files is_processed existsb]. unfold embedded_date in Hf.
  destruct (date_pattern _); [|reflexivity].
  unfold strptime_Ymd in *.
  destruct (_ && _); [discriminate|]. reflexivity.
Qed.

Lemma undated_candidate_ends_selection_witness :
  get_last_log_file "log" None
    [("nginx-access-ui.log-20230301", false);
     ("nginx-access-ui.log-20230302-gz", false);
     ("nginx-access-ui.log-20230303", false)]
  = Ok None.
Proof.
  rewrite (undated_candidate_ends_selection "log" None _
             ["nginx-access-ui.log-20230301"] "nginx-access-ui.log-20230302-gz"
             ["nginx-access-ui.log-20230303"]).
  - vm_compute. reflexivity.
  - vm_compute. reflexivity.
  - repeat constructor. eexists. vm_compute. reflexivity.
  - vm_compute. reflexivity.
Defined.

(** ** How [main] ends *)

Lemma parse_config_default_key file cfg k d :
  parse_config file config = Some cfg ->
  dict_get k config = Some d ->
  exists v, dict_get k cfg = Some v.
Proof.
  intros H Hk. destruct file as [lines|]; [|discriminate].
  destruct (parse_config_lookup lines config cfg) as (uc & _ & Hget).
  - vm_compute. repeat constructor; cbn; intuition discriminate.
  - exact H.
  - rewrite Hget, Hk. destruct (dict_get k uc) as [v|]; [|eexists; reflexivity].
    destruct (String.eqb v ""); eexists; reflexivity.
Qed.

Lemma scan_log_files_raises processed_logs log_files :
  forall max_date last_log_file x,
    scan_log_files processed_logs log_files max_date last_log_file = Raise x ->
    x = ValueError.
Proof.
  induction log_files as [|f files IH]; intros max_date last_log_file x H;
    [discriminate|].
  cbn [scan_log_files] in H.
  destruct (is_processed f processed_logs); [eapply IH; exact H|].
  destruct (date_pattern _); [|discriminate].
  unfold strptime_Ymd in H. destruct (_ && _); cbn [bind] in H.
  - destruct (datetime_gtb _ _); eapply IH; exact H.
  - inversion H. reflexivity.
Qed.

Lemma get_last_log_file_raises log_dir registry entries x :
  get_last_log_file log_dir registry entries = Raise x -> x = ValueError.
Proof.
  unfold get_last_log_file. intros H.
  destruct (scan_log_files _ _ datetime_min None) as [r|e] eqn:Hscan; cbn [bind] in H.
  - destruct r as [[m [name|]]|]; try discriminate.
    destruct (String.eqb name ""); discriminate.
  - inversion H; subst e. eapply scan_log_files_raises. exact Hscan.
Qed.

Lemma decode_request_time log_values log_line :
  decode log_values = Ok log_line -> exists s, request_time log_line = VStr s.
Proof.
  unfold decode.
  do 13 (destruct log_values as [|? log_values]; [discriminate|]).
  intros H. inversion H. eexists. reflexivity.
Qed.

Lemma decode_raises log_values x :
  decode log_values = Raise x -> x = IndexError.
Proof.
  unfold decode.
  do 13 (destruct log_values as [|? log_values];
         [intros H; inversion H; reflexivity|]).
  discriminate.
Qed.

Lemma log_parser_items lines :
  (forall x, In (Raise x) (log_parser lines) -> x = IndexError)
  /\ (forall log_line, In (Ok log_line) (log_parser lines) ->
                       exists s, request_time log_line = VStr s).
Proof.
  induction lines as [|line lines [IH1 IH2]]; cbn [log_parser].
  - split; intros ? [].
  - destruct (String.eqb line ""); [split; intros ? []|].
    split.
    + intros x [H|H]; [|apply IH1; exact H].
      eapply decode_raises. exact H.
    + intros log_line [H|H]; [|apply IH2; exact H].
      eapply decode_request_time. exact H.
Qed.

(** X16: a run of [main] that ends with an uncaught exception ends with
    a [ValueError], an [IndexError] or a [ZeroDivisionError]: no key is
    ever missing from the configuration or from the counters. *)
Theorem main_exceptions float_of_str w config_path x :
  main float_of_str w config_path = Uncaught x ->
  x = ValueError \/ x = IndexError \/ x = ZeroDivisionError.
Proof.
  unfold main. intros H.
  destruct (parse_config (config_lines w config_path) config) as [cfg|] eqn:Hcfg;
    [|discriminate].
  destruct (parse_config_default_key _ cfg "LOG_DIR" _ Hcfg eq_refl) as (log_dir & Hl).
  destruct (parse_config_default_key _ cfg "REGISTRY_FILE" _ Hcfg eq_refl) as (reg & Hr).
  destruct (parse_config_default_key _ cfg "REPORT_DIR" _ Hcfg eq_refl) as (rd & Hrd).
  destruct (parse_config_default_key _ cfg "REPORT_SIZE" _ Hcfg eq_refl) as (rs & Hrs).
  destruct cfg as [|kv cfg']; [discriminate|].
  remember (kv :: cfg') as cfg.
  destruct (process float_of_str w cfg) as [o|e] eqn:Hp; [subst o|].
  - unfold process, dict_item in Hp. rewrite Hl, Hr in Hp. cbn [bind] in Hp.
    destruct (get_last_log_file _ _ _) as [[lf|]|e]; cbn [bind] in Hp;
      try discriminate.
    rewrite Hrd, Hrs in Hp. cbn [bind] in Hp.
    destruct (write_report _ _ _); cbn [bind] in Hp; discriminate.
  - inversion H; subst e; clear H.
    unfold process, dict_item in Hp. rewrite Hl, Hr in Hp. cbn [bind] in Hp.
    destruct (get_last_log_file _ _ _) as [[lf|]|e] eqn:Hsel; cbn [bind] in Hp.
    + rewrite Hrd, Hrs in Hp. cbn [bind] in Hp.
      destruct (write_report float_of_str (log_parser (log_lines w (file lf))) (VStr rs))
        as [table|e] eqn:Hw; cbn [bind] in Hp; [discriminate|].
      inversion Hp; subst e.
      destruct (log_parser_items (log_lines w (file lf))) as (Hraise & Hstr).
      destruct (write_report_raises_cases _ _ _ _ Hw)
        as [Hin|[Hv|[Hz|(_ & l & n & Hin & Hn)]]]; auto.
      destruct (Hstr l Hin) as (s & Hs). congruence.
    + discriminate.
    + inversion Hp; subst e. left. eapply get_last_log_file_raises. exact Hsel.
Qed.

Lemma main_exceptions_witness :
  IndexError = ValueError \/ IndexError = IndexError \/ IndexError = ZeroDivisionError.
Proof.
  apply (main_exceptions float_of_decimal
           (one_log_world [full_line; short_line; full_line]) "./config" IndexError).
  vm_compute. reflexivity.
Defined.

(** X17: when the configuration is read and no name of the log
    directory matches the pattern without being in the registry, [main]
    exits with status 0: nothing is parsed and no report is written. *)
Theorem main_no_candidates float_of_str w config_path cfg log_dir registry_name :
  parse_config (config_lines w config_path) config = Some cfg ->
  dict_get "LOG_DIR" cfg = Some log_dir ->
  dict_get "REGISTRY_FILE" cfg = Some registry_name ->
  candidates (registry_lines w (path_join log_dir registry_name)) (iterdir w log_dir)
  = [] ->
  main float_of_str w config_path = SysExit 0.
Proof.
  intros Hcfg Hl Hr Hc. unfold main. rewrite Hcfg.
  destruct cfg as [|kv cfg']; [discriminate|].
  unfold process, dict_item. rewrite Hl, Hr. cbn [bind].
  rewrite get_last_log_file_candidates, Hc. reflexivity.
Qed.

Lemma main_no_candidates_witness :
  main float_of_decimal
    {| config_lines := fun _ => Some [("LOG_DIR=/var/log" ++ nl)%string];
       registry_lines := fun _ => Some [nl; "nginx-access-ui.log-20170630"];
       iterdir := fun _ => [("nginx-access-ui.log-20170630", false);
                            ("nginx-access-ui.log-20170701", true);
                            ("access.log", false)];
       log_lines := fun _ => [full_line] |} "./config"
  = SysExit 0.
Proof.
  eapply main_no_candidates.
  - vm_compute. reflexivity.
  - vm_compute. reflexivity.
  - vm_compute. reflexivity.
  - vm_compute. reflexivity.
Defined.

(** ** The resources of the report *)

(** X18: [_copy_report_resources] never copies a file.  When it returns,
    the files are as they were and every resource was already there;
    otherwise it fails on a resource that is missing under
    [resources/], at the attempt to copy it. *)
Theorem copy_report_resources_copies_nothing fs report_dir resources :
  (forall fs',
      _copy_report_resources fs report_dir resources = Done fs' ->
      fs' = fs
      /\ Forall (fun r => path_exists fs (path_join "resources/" r) = true) resources)
  /\ (forall p,
         _copy_report_resources fs report_dir resources = OSError p ->
         exists r, In r resources
                   /\ p = path_join "resources/" r
                   /\ path_exists fs p = false).
Proof.
  induction resources as [|r rest [IHd IHe]]; cbn [_copy_report_resources].
  - split; [intros fs' H; inversion H; split; [reflexivity|constructor]|].
    intros p H. discriminate.
  - unfold shutil_copy, path_exists in *.
    destruct (fs (path_join "resources/" r)) as [content|] eqn:Hr; cbn [negb].
    + split.
      * intros fs' H. destruct (IHd fs' H) as (-> & Hall).
        split; [reflexivity|]. constructor; [rewrite Hr; reflexivity|exact Hall].
      * intros p H. destruct (IHe p H) as (r' & Hin & Hp & Hex).
        exists r'. split; [right; exact Hin|]. split; assumption.
    + split; [intros fs' H; discriminate|].
      intros p H. inversion H; subst p. exists r.
      split; [left; reflexivity|]. split; [reflexivity|]. rewrite Hr. reflexivity.
Qed.

Lemma copy_report_resources_copies_nothing_witness :
  exists r,
    In r ["js/jquery.tablesorter.min.js"]
    /\ "resources/js/jquery.tablesorter.min.js" = path_join "resources/" r
    /\ path_exists (fun _ => None) "resources/js/jquery.tablesorter.min.js" = false.
Proof.
  apply (proj2 (copy_report_resources_copies_nothing (fun _ => None) "./reports"
                  ["js/jquery.tablesorter.min.js"])).
  vm_compute. reflexivity.
Defined.

(** ** The registry after a run *)

Lemma string_app_assoc (a b c : string) :
  ((a ++ b) ++ c)%string = (a ++ b ++ c)%string.
Proof. induction a as [|x a IH]; cbn; [reflexivity|]. rewrite IH. reflexivity. Qed.

Lemma find_from_app_sep (c : ascii) (a b : string) :
  forall i, 0 <= i -> 0 <= Str.find_from c (a ++ String c b) i.
Proof.
  induction a as [|x a IH]; intros i Hi; cbn.
  - rewrite Ascii.eqb_refl. exact Hi.
  - destruct (Ascii.eqb x c); [exact Hi|]. apply IH. lia.
Qed.

Lemma find_from_tail (c x : ascii) (s : string) :
  forall i, 0 <= i -> Str.find_from c (String x s) i = -1 ->
    Ascii.eqb x c = false /\ Str.find_from c s (i + 1) = -1.
Proof.
  intros i Hi H. cbn in H. destruct (Ascii.eqb x c); [lia|]. split; [reflexivity|exact H].
Qed.

Lemma find_from_shift (c : ascii) (s : string) :
  forall i j, 0 <= i -> 0 <= j ->
    Str.find_from c s i = -1 -> Str.find_from c s j = -1.
Proof.
  induction s as [|x s IH]; intros i j Hi Hj H; [reflexivity|].
  cbn in *. destruct (Ascii.eqb x c); [lia|].
  apply (IH (i + 1) (j + 1)); lia || exact H.
Qed.

Lemma basename_no_slash (f : string) : Str.find "/" f = -1 -> basename f = f.
Proof.
  destruct f as [|x f]; [reflexivity|]. intros H.
  destruct (find_from_tail "/" x f 0 ltac:(lia) H) as (Hx & Hf).
  cbn [basename]. rewrite Hx.
  unfold Str.find. rewrite (find_from_shift "/" f 1 0) by (lia || exact Hf).
  reflexivity.
Qed.

Lemma basename_after_slash (a f : string) :
  Str.find "/" f = -1 -> basename (a ++ String "/" f) = f.
Proof.
  intros Hf. induction a as [|x a IH]; cbn [append basename].
  - rewrite Ascii.eqb_refl. apply basename_no_slash. exact Hf.
  - destruct (Ascii.eqb x "/"); [exact IH|].
    unfold Str.find.
    destruct (Z.leb_spec 0 (Str.find_from "/" (a ++ String "/" f) 0)) as [_|Hlt];
      [exact IH|].
    pose proof (find_from_app_sep "/" a f 0 ltac:(lia)). lia.
Qed.

Lemma last_char_slash (a : string) :
  Str.last_chars 1 a = "/" -> exists a0, a = (a0 ++ "/")%string.
Proof.
  unfold Str.last_chars. induction a as [|x a IH]; cbn [String.length]; intros H.
  - discriminate.
  - destruct a as [|y a].
    + cbn in H. exists "". exact H.
    + assert (H' : Str.drop (String.length (String y a) - 1) (String y a) = "/").
      { cbn [String.length] in *.
        replace (S (S (String.length a)) - 1)%nat with (S (String.length a)) in H by lia.
        replace (S (String.length a) - 1)%nat with (String.length a) by lia.
        cbn [Str.drop] in H. exact H. }
      destruct (IH H') as (a0 & Ha0). exists (String x a0). cbn. rewrite <- Ha0.
      reflexivity.
Qed.

Lemma basename_path_join (log_dir f : string) :
  f <> "" -> Str.find "/" f = -1 -> basename (path_join log_dir f) = f.
Proof.
  intros Hne Hf. unfold path_join.
  destruct f as [|x f]; [congruence|].
  destruct (find_from_tail "/" x f 0 ltac:(lia) Hf) as (Hx & _).
  assert (Hp : String.prefix "/" (String x f) = false).
  { change (String.prefix "/" (String x f))
      with (if ascii_dec "/" x then String.prefix "" f else false).
    destruct (ascii_dec "/" x) as [<-|_]; [discriminate|reflexivity]. }
  rewrite Hp.
  destruct (String.eqb log_dir ""); [apply basename_no_slash; exact Hf|].
  destruct (String.eqb_spec (Str.last_chars 1 log_dir) "/") as [Hl|_].
  - destruct (last_char_slash log_dir Hl) as (a0 & ->).
    rewrite string_app_assoc. apply basename_after_slash. exact Hf.
  - apply basename_after_slash. exact Hf.
Qed.

Lemma readlines_one_line (f : string) :
  forall i j, 0 <= i -> 0 <= j ->
    f <> "" ->
    Str.find_from newline f i = -1 -> Str.find_from carriage_return f j = -1 ->
    readlines f = [f].
Proof.
  induction f as [|x f IH]; intros i j Hi Hj Hne Hn Hr; [congruence|].
  destruct (find_from_tail newline x f i Hi Hn) as (Hxn & Hn').
  destruct (find_from_tail carriage_return x f j Hj Hr) as (Hxr & Hr').
  cbn [readlines]. rewrite Hxn, Hxr.
  destruct f as [|y f]; [reflexivity|].
  rewrite (IH (i + 1) (j + 1)) by (lia || discriminate || assumption).
  reflexivity.
Qed.

Lemma readlines_ended (a : string) : readlines (a ++ nl) <> [].
Proof.
  unfold nl. destruct a as [|x a]; cbn [append readlines].
  - rewrite Ascii.eqb_refl. discriminate.
  - destruct (Ascii.eqb x newline); [discriminate|].
    destruct (Ascii.eqb x carriage_return).
    + destruct a as [|y a]; cbn [append].
      * rewrite Ascii.eqb_refl. discriminate.
      * destruct (Ascii.eqb y newline); discriminate.
    + destruct (readlines _); discriminate.
Qed.

Lemma readlines_line_feed (b : string) :
  readlines (String newline b) = nl :: readlines b.
Proof. cbn [readlines]. rewrite Ascii.eqb_refl. reflexivity. Qed.

Lemma readlines_after_line (n : nat) :
  forall a b,
    (String.length a <= n)%nat ->
    readlines (a ++ String newline b) = readlines (a ++ nl) ++ readlines b.
Proof.
  induction n as [|n IH]; intros a b Hlen.
  - destruct a; [|cbn in Hlen; lia].
    unfold nl. cbn [append]. rewrite !readlines_line_feed. reflexivity.
  - destruct a as [|x a].
    { unfold nl. cbn [append]. rewrite !readlines_line_feed. reflexivity. }
    cbn [String.length] in Hlen.
    cbn [append readlines].
    destruct (Ascii.eqb x newline).
    { rewrite IH by lia. reflexivity. }
    destruct (Ascii.eqb x carriage_return).
    { destruct a as [|y a].
      - unfold nl. cbn [append]. rewrite !Ascii.eqb_refl. reflexivity.
      - cbn [append]. cbn [String.length] in Hlen.
        destruct (Ascii.eqb y newline).
        + rewrite IH by lia. reflexivity.
        + change (String y (a ++ String newline b))
            with (String y a ++ String newline b)%string.
          change (String y (a ++ nl)) with (String y a ++ nl)%string.
          rewrite IH by (cbn [String.length]; lia). reflexivity. }
    rewrite IH by lia.
    pose proof (readlines_ended a) as Hne.
    destruct (readlines (a ++ nl)) as [|l ls]; [congruence|]. reflexivity.
Qed.

Lemma existsb_last (f : string) (l : list string) :
  existsb (String.eqb f) (l ++ [f]) = true.
Proof.
  rewrite existsb_app. cbn. rewrite String.eqb_refl.
  destruct (existsb (String.eqb f) l); reflexivity.
Qed.

(** X19: once [mark_as_processed] has appended the base name of the
    selected file to the registry, the name is read back by the next
    run as processed, so that the next selection does not take that
    file again. *)
Theorem marked_file_not_selected registry log_dir f :
  clean_name f ->
  let lines := readlines (mark_as_processed (path_join log_dir f) registry) in
  is_processed f (map Str.strip lines) = true
  /\ forall entries,
       ~ In f (candidates (Some lines) entries)
       /\ forall lf,
            get_last_log_file log_dir (Some lines) entries = Ok (Some lf) ->
            exists g, file lf = path_join log_dir g /\ g <> f.
Proof.
  intros (Hne & Hslash & Hnl & Hcr & Hstrip) lines.
  assert (Hproc : is_processed f (map Str.strip lines) = true).
  { unfold lines, mark_as_processed.
    rewrite (basename_path_join log_dir f Hne Hslash).
    change (nl ++ f)%string with (String newline f).
    rewrite (readlines_after_line _ _ f (Nat.le_refl _)).
    rewrite (readlines_one_line f 0 0) by (lia || assumption).
    rewrite map_app. cbn [map]. rewrite Hstrip.
    unfold is_processed. apply existsb_last. }
  split; [exact Hproc|].
  intros entries.
  assert (Hnot : ~ In f (candidates (Some lines) entries)).
  { intros Hin. apply candidates_In in Hin. destruct Hin as [_ Hp]. congruence. }
  split; [exact Hnot|].
  intros lf Hget.
  destruct (get_last_log_file_position log_dir (Some lines) entries lf Hget)
    as (pre & g & post & Hc & Hfile & _).
  exists g. split; [exact Hfile|].
  intros ->. apply Hnot. rewrite Hc. apply in_or_app. right. left. reflexivity.
Qed.

Lemma marked_file_not_selected_witness :
  is_processed "nginx-access-ui.log-20170630"
    (map Str.strip
       (readlines
          (mark_as_processed (path_join "./log" "nginx-access-ui.log-20170630")
             (Some (nl ++ "nginx-access-ui.log-20170629")%string))))
  = true.
Proof.
  apply (marked_file_not_selected
           (Some (nl ++ "nginx-access-ui.log-20170629")%string) "./log"
           "nginx-access-ui.log-20170630").
  repeat split; vm_compute; try reflexivity. discriminate.
Defined.

(** ** Names that follow the convention *)

Lemma digit_not_dot (c : ascii) (s : string) :
  Str.is_digit c = true -> String.prefix ".gz" (String c s) = false.
Proof.
  intros H.
  change (String.prefix ".gz" (String c s))
    with (if ascii_dec "." c then String.prefix "gz" s else false).
  destruct (ascii_dec "." c) as [<-|_]; [vm_compute in H; discriminate|reflexivity].
Qed.

Lemma replace_digits (d : string) :
  forall tail,
    Str.all_digits d = true ->
    Str.replace_from ".gz" "" 0 (d ++ tail)
    = (d ++ Str.replace_from ".gz" "" 0 tail)%string.
Proof.
  induction d as [|c d IH]; intros tail H; [reflexivity|].
  cbn [Str.all_digits] in H. apply andb_true_iff in H. destruct H as [Hc Hd].
  cbn [append Str.replace_from]. rewrite (digit_not_dot c _ Hc).
  rewrite IH by exact Hd. reflexivity.
Qed.

Lemma eight_characters (d : string) :
  String.length d = 8%nat ->
  exists c1 c2 c3 c4 c5 c6 c7 c8,
    d = String c1 (String c2 (String c3 (String c4
          (String c5 (String c6 (String c7 (String c8 ""))))))).
Proof.
  intros H.
  do 8 (destruct d as [|? d]; [discriminate|]).
  destruct d; [|discriminate].
  repeat eexists.
Qed.

(** X20: a name made of [nginx-access-ui.log-] and eight digits, alone
    or followed by [.gz], matches the pattern of the log files, and the
    date that the selection reads in it is the day that the eight digits
    name, if they name one. *)
Theorem convention_names (d : string) :
  String.length d = 8%nat ->
  Str.all_digits d = true ->
  log_file_pttn ("nginx-access-ui.log-" ++ d) = true
  /\ log_file_pttn ("nginx-access-ui.log-" ++ d ++ ".gz") = true
  /\ embedded_date ("nginx-access-ui.log-" ++ d) = day_of (strptime_Ymd d)
  /\ embedded_date ("nginx-access-ui.log-" ++ d ++ ".gz") = day_of (strptime_Ymd d).
Proof.
  intros Hlen Hdigits.
  assert (Hreplace : forall t,
             Str.replace ".gz" "" ("nginx-access-ui.log-" ++ d ++ t)
             = ("nginx-access-ui.log-" ++ d ++ Str.replace_from ".gz" "" 0 t)%string).
  { intros t. unfold Str.replace.
    change (Str.replace_from ".gz" "" 0 ("nginx-access-ui.log-" ++ d ++ t))
      with ("nginx-access-ui.log-" ++ Str.replace_from ".gz" "" 0 (d ++ t))%string.
    rewrite replace_digits by exact Hdigits. reflexivity. }
  destruct (eight_characters d Hlen) as (c1 & c2 & c3 & c4 & c5 & c6 & c7 & c8 & Hd).
  subst d.
  set (d := String c1 (String c2 (String c3 (String c4
              (String c5 (String c6 (String c7 (String c8 "")))))))) in *.
  assert (Hpttn : forall t, gz_suffixes t = true ->
                    log_file_pttn ("nginx-access-ui.log-" ++ d ++ t) = true).
  { intros t Ht. unfold log_file_pttn.
    replace (String.substring 20 8 ("nginx-access-ui.log-" ++ d ++ t)) with d
      by (destruct t; reflexivity).
    change (Str.drop 28 ("nginx-access-ui.log-" ++ d ++ t)) with t.
    rewrite Hdigits, Ht. reflexivity. }
  assert (Hdate : forall t, Str.replace_from ".gz" "" 0 t = "" ->
                    embedded_date ("nginx-access-ui.log-" ++ d ++ t)
                    = day_of (strptime_Ymd d)).
  { intros t Ht. unfold embedded_date. rewrite Hreplace, Ht.
    change (Str.last_chars 8 ("nginx-access-ui.log-" ++ d ++ "")) with d.
    unfold date_pattern.
    change (String.substring 0 8 d) with d.
    rewrite Hdigits. cbn [String.length Nat.eqb andb d].
    destruct (strptime_Ymd _); reflexivity. }
  split; [|split; [|split]].
  - change ("nginx-access-ui.log-" ++ d)%string
      with ("nginx-access-ui.log-" ++ d ++ "")%string.
    apply Hpttn. reflexivity.
  - apply Hpttn. reflexivity.
  - change ("nginx-access-ui.log-" ++ d)%string
      with ("nginx-access-ui.log-" ++ d ++ "")%string.
    apply Hdate. reflexivity.
  - apply Hdate. reflexivity.
Qed.

Lemma convention_names_witness :
  embedded_date ("nginx-access-ui.log-" ++ "20170630" ++ ".gz")
  = Some {| year := 2017; month := 6; day := 30 |}.
Proof.
  destruct (convention_names "20170630") as (_ & _ & _ & H).
  - reflexivity.
  - reflexivity.
  - rewrite H. vm_compute. reflexivity.
Defined.

(** ** When the loop over the records succeeds *)

Lemma aggregate_not_accepted float_of_str st st' log_line :
  accepted float_of_str (Ok log_line) = None ->
  aggregate float_of_str st log_line = Ok st' ->
  String.length (request log_line) = 3%nat.
Proof.
  unfold accepted, aggregate. intros Hacc Hagg.
  destruct (Z.eqb_spec (Str.len (request log_line)) 3) as [H3|_].
  - unfold Str.len in H3. lia.
  - exfalso.
    destruct (firstn 2 (Str.split " " (request log_line)))
      as [|a [|u [|b r]]]; try discriminate.
    destruct (py_float float_of_str (request_time log_line)) as [t'|] eqn:Hf;
      [discriminate|].
    destruct (dict_get u (url_counters st)); cbn in Hagg;
      destruct (dict_item u _); cbn in Hagg; discriminate.
Qed.

Lemma aggregate_all_succeeds_from float_of_str log_parser :
  forall st,
    counters_inv st ->
    Forall (fun item =>
      exists log_line,
        item = Ok log_line
        /\ (String.length (request log_line) = 3%nat
            \/ accepted float_of_str (Ok log_line) <> None)) log_parser ->
    exists st', aggregate_all float_of_str st log_parser = Ok st'.
Proof.
  induction log_parser as [|item rest IH]; intros st Hinv Hall.
  - exists st. reflexivity.
  - inversion Hall as [|? ? (log_line & -> & Hcase) Hrest]; subst.
    cbn [aggregate_all bind].
    assert (Hstep : exists st1, aggregate float_of_str st log_line = Ok st1
                                /\ counters_inv st1).
    { destruct (accepted float_of_str (Ok log_line)) as [[url t]|] eqn:Hacc.
      - exists (record_time st url t).
        split; [apply aggregate_accepted; assumption|].
        apply record_time_inv. exact Hinv.
      - destruct Hcase as [Hlen|Hne]; [|congruence].
        exists st. split; [|exact Hinv].
        unfold aggregate, Str.len. rewrite Hlen. reflexivity. }
    destruct Hstep as (st1 & Hst1 & Hinv1). rewrite Hst1. cbn [bind].
    apply IH; assumption.
Qed.

(** X21: the loop over the records ends without an exception exactly
    when the generator raises nothing and every record either has a
    request of three characters or has a request of at least two pieces
    and a request time that [float] accepts. *)
Theorem aggregate_all_succeeds float_of_str log_parser :
  (exists st, aggregate_all float_of_str initial_counters log_parser = Ok st)
  <-> Forall (fun item =>
        exists log_line,
          item = Ok log_line
          /\ (String.length (request log_line) = 3%nat
              \/ accepted float_of_str (Ok log_line) <> None)) log_parser.
Proof.
  split.
  - intros (st & Hrun). revert st Hrun.
    generalize initial_counters.
    induction log_parser as [|item rest IH]; intros st0 st Hrun; [constructor|].
    cbn [aggregate_all] in Hrun.
    destruct item as [log_line|e]; cbn [bind] in Hrun; [|discriminate].
    destruct (aggregate float_of_str st0 log_line) as [st1|e] eqn:Hstep;
      cbn [bind] in Hrun; [|discriminate].
    constructor; [|apply (IH st1 st Hrun)].
    exists log_line. split; [reflexivity|].
    destruct (accepted float_of_str (Ok log_line)) eqn:Hacc.
    + right. discriminate.
    + left. eapply aggregate_not_accepted; eassumption.
  - intros Hall.
    apply aggregate_all_succeeds_from; [apply initial_counters_inv|exact Hall].
Qed.

(** ** A run that writes a report *)

Lemma candidate_entry registry entries f :
  In f (candidates registry entries) ->
  In f (map fst entries) /\ log_file_pttn f = true.
Proof.
  intros Hin. apply candidates_In in Hin. destruct Hin as [Hin _].
  apply in_map_iff in Hin. destruct Hin as ([n isdir] & Hfst & Hin).
  cbn in Hfst. subst n. apply filter_In in Hin. destruct Hin as [Hin Hf].
  cbn in Hf. apply andb_true_iff in Hf. split; [|apply Hf].
  apply in_map_iff. exists (f, isdir). split; [reflexivity|exact Hin].
Qed.

(** X22: when [main] writes a report, the name it appends to the
    registry is one of the names of the log directory that match the
    pattern and were not in the registry, the date of the report is the
    date read in that name, and the table is the one that
    [write_report] builds from the lines of that file of the log
    directory (the names of a directory contain no slash). *)
Theorem main_reported float_of_str w config_path log_date table processed :
  main float_of_str w config_path = Reported log_date table processed ->
  exists cfg log_dir registry_name report_size,
    parse_config (config_lines w config_path) config = Some cfg
    /\ dict_get "LOG_DIR" cfg = Some log_dir
    /\ dict_get "REGISTRY_FILE" cfg = Some registry_name
    /\ dict_get "REPORT_SIZE" cfg = Some report_size
    /\ (Forall (fun e => Str.find "/" (fst e) = -1) (iterdir w log_dir) ->
        In processed
          (candidates (registry_lines w (path_join log_dir registry_name))
             (iterdir w log_dir))
        /\ embedded_date processed = Some log_date
        /\ write_report float_of_str
             (log_parser (log_lines w (path_join log_dir processed)))
             (VStr report_size)
           = Ok table).
Proof.
  unfold main. intros H.
  destruct (parse_config (config_lines w config_path) config) as [cfg|] eqn:Hcfg;
    [|discriminate].
  destruct cfg as [|kv cfg']; [discriminate|].
  remember (kv :: cfg') as cfg.
  destruct (process float_of_str w cfg) as [o|e] eqn:Hp; [subst o|discriminate].
  unfold process, dict_item in Hp.
  destruct (dict_get "LOG_DIR" cfg) as [log_dir|] eqn:Hld; cbn [bind] in Hp;
    [|discriminate].
  destruct (dict_get "REGISTRY_FILE" cfg) as [reg|] eqn:Hrf; cbn [bind] in Hp;
    [|discriminate].
  destruct (get_last_log_file _ _ _) as [[lf|]|e] eqn:Hsel; cbn [bind] in Hp;
    try discriminate.
  destruct (dict_get "REPORT_DIR" cfg) as [rd|]; cbn [bind] in Hp; [|discriminate].
  destruct (dict_get "REPORT_SIZE" cfg) as [rs|] eqn:Hrs; cbn [bind] in Hp;
    [|discriminate].
  destruct (write_report float_of_str (log_parser (log_lines w (file lf))) (VStr rs))
    as [t|e] eqn:Hw; cbn [bind] in Hp; [|discriminate].
  inversion Hp; subst log_date table processed.
  exists cfg, log_dir, reg, rs.
  split; [reflexivity|]. split; [exact Hld|]. split; [exact Hrf|].
  split; [exact Hrs|].
  intros Hslash.
  destruct (get_last_log_file_position _ _ _ _ Hsel)
    as (pre & f & post & Hc & Hfile & Hdate & _).
  assert (Hin : In f (candidates (registry_lines w (path_join log_dir reg))
                        (iterdir w log_dir))).
  { rewrite Hc. apply in_or_app. right. left. reflexivity. }
  destruct (candidate_entry _ _ _ Hin) as (Hentry & Hpttn).
  assert (Hf : Str.find "/" f = -1).
  { apply in_map_iff in Hentry. destruct Hentry as (e & <- & He).
    apply (proj1 (Forall_forall _ _) Hslash e He). }
  assert (Hne : f <> "").
  { intros ->. discriminate. }
  rewrite Hfile, (basename_path_join log_dir f Hne Hf).
  split; [exact Hin|]. split; [exact Hdate|].
  rewrite <- Hfile. exact Hw.
Qed.

Lemma main_reported_witness :
  In "nginx-access-ui.log-20170630"
    (candidates None [("nginx-access-ui.log-20170630", false)])
  /\ embedded_date "nginx-access-ui.log-20170630"
     = Some {| year := 2017; month := 6; day := 30 |}.
Proof.
  destruct (main float_of_decimal (one_log_world [full_line; full_line]) "./config")
    as [code|e|log_date table processed] eqn:E;
    try (vm_compute in E; discriminate).
  destruct (main_reported float_of_decimal _ _ _ _ _ E)
    as (cfg & log_dir & reg & rs & _ & _ & _ & _ & H).
  vm_compute in E. inversion E; subst log_date processed.
  destruct H as (Hin & Hdate & _).
  - repeat constructor.
  - split; [exact Hin|exact Hdate].
Defined.
